(** * gtool.py : the tool-interaction engine of the geometric editor

    A shallow embedding of [src/gtool.py] (classes [ObjSelector],
    [HighlightList], [GTool], [GToolMove], [GToolHide]) and the properties
    of its picking, overlay and click/drag protocol.

    Conventions.
    - A finite Python float (a distance, the viewport scale, a pixel
      radius) is the rational it denotes, in [Q]; comparisons of floats are
      comparisons of these rationals.  [/] gives the float nearest to the
      exact quotient ([py_quot]) and raises [ZeroDivisionError] on a zero
      divisor, as it does for Python floats; infinities and NaN are not
      represented.
    - A method that may raise returns a [result]; a method that mutates
      [self] takes the object and returns the new object.
    - Callables stored in attributes ([update], [confirm], [drag], ...) are
      names of methods ([callable]) interpreted by [call]; the tuple form
      accepted by [run_tuple] is [HTuple].
    - Modules that are imported by gtool.py but are not part of it
      (geo_object, tool_step, movable_tools, the viewport and the graphical
      environment) are parameters, collected in type classes. *)

From Stdlib Require Import QArith Qabs ZArith List Bool Lia.
From stdpp Require Import base option list gmap.
Import ListNotations.

(** ** Exceptions and the error monad *)

Inductive exn : Type :=
| AttributeError
| ZeroDivisionError
| AssertionError
| IndexError
| ValueError
| TypeError.

Inductive result (A : Type) : Type :=
| Ok (a : A)
| Raise (e : exn).
Arguments Ok {A} a.
Arguments Raise {A} e.

Definition bind {A B : Type} (m : result A) (k : A -> result B) : result B :=
  match m with
  | Ok a => k a
  | Raise e => Raise e
  end.

Notation "'let!' x ':=' m 'in' k" := (bind m (fun x => k))
  (at level 10, x pattern, m at level 100, k at level 200,
   format "'[' 'let!'  x  ':='  m  'in'  '/' k ']'").

(** *** Float division

    IEEE 754 binary64, round to nearest, ties to even: the format of a
    Python float.  [round_half_even q] is the integer nearest to [q >= 0];
    [floor_log2 q] is the exponent [e] with [2^e <= q < 2^(e+1)], for
    [q > 0]. *)
Definition round_half_even (q : Q) : Z :=
  let n := Qnum q in
  let d := Z.pos (Qden q) in
  let f := (n / d)%Z in
  match (2 * (n mod d) ?= d)%Z with
  | Lt => f
  | Gt => (f + 1)%Z
  | Eq => if Z.even f then f else (f + 1)%Z
  end.

Definition floor_log2 (q : Q) : Z :=
  let e0 := (Z.log2 (Qnum q) - Z.log2 (Z.pos (Qden q)))%Z in
  if Qle_bool (2 ^ e0) q then e0 else (e0 - 1)%Z.

(** The float nearest to [q]: 53 significant bits, and multiples of
    [2^-1074] below [2^-1022].  (Beyond the largest float the code gets
    an infinity, which has no counterpart here.) *)
Definition float_of_Q (q : Q) : Q :=
  if Qeq_bool q 0 then 0
  else
    let a := Qabs q in
    let quantum := (2 ^ (Z.max (floor_log2 a) (-1022) - 52))%Q in
    let v := Qred (inject_Z (round_half_even (a / quantum)) * quantum) in
    if Qle_bool 0 q then v else (- v)%Q.

(** The value of [a / b] for floats [a] and [b <> 0]. *)
Definition py_quot (a b : Q) : Q := float_of_Q (a / b).
Arguments py_quot : simpl never.

(** Python's [a / b] on floats. *)
Definition py_truediv (a b : Q) : result Q :=
  if Qeq_bool b 0 then Raise ZeroDivisionError else Ok (py_quot a b).

(** Python's [a >= b]. *)
Definition py_ge (a b : Q) : bool := Qle_bool b a.

(** ** Data *)

(** Graphical indices are Python ints used as indices. *)
Definition gi : Type := nat.

(** Cursor coordinates: numpy arrays of two floats, with their subtraction. *)
Definition coor : Type := (Q * Q)%type.

Definition coor_sub (a b : coor) : coor :=
  ((fst a - fst b)%Q, (snd a - snd b)%Q).

(** The types owned by the collaborating modules. *)
Class Signature : Type := {
  num : Type;       (* numerical representations: geo_object's Point, Line, Circle *)
  Vis : Type;       (* the graphical environment, viewport.vis *)
  Env : Type;       (* the logical environment, viewport.env *)
  grasp : Type;     (* what a movable tool's get_grasp returns *)
  callable : Type;  (* names of the bound methods stored in attributes *)
}.

(** The viewport handed over by [enter]; [self.vis] and [self.env] are
    aliases of [viewport.vis] and [viewport.env], so they are read through
    the one [viewport] field. *)
Record Viewport `{Signature} : Type := mkViewport {
  scale : Q;
  vis : Vis;
  env : Env;
}.

(** Arguments that a stored callable receives. *)
Inductive value `{Signature} : Type :=
| VCoor (c : coor)
| VBool (b : bool)
| VObj (o : gi)
| VStep (i : nat)
| VGrasp (g : grasp)
| VNums (ns : list num).

(** A stored callable: a bound method [f], or a tuple [(f, a1, ..., an)]. *)
Inductive handler `{Signature} : Type :=
| HFun (f : callable)
| HTuple (f : callable) (extra : list value).

(** What a highlight list holds: graphical indices (selections) or numerical
    objects (proposed points). *)
Inductive hl_item `{Signature} : Type :=
| HGi (o : gi)
| HNum (n : num).

(** ** class ObjSelector *)

Record ObjSelector `{Signature} : Type := mkObjSelector {
  find_radius_pix : Q;
  find_radius : option Q;   (* None: the attribute has not been assigned yet *)
  viewport : Viewport;
}.

Definition set_find_radius `{Signature} (r : Q) (self : ObjSelector) : ObjSelector :=
  {| find_radius_pix := find_radius_pix self;
     find_radius := Some r;
     viewport := viewport self |}.

Definition set_viewport `{Signature} (vp : Viewport) (self : ObjSelector) : ObjSelector :=
  {| find_radius_pix := find_radius_pix self;
     find_radius := find_radius self;
     viewport := vp |}.

(** [ObjSelector.__init__]: assigns [find_radius_pix] on the allocated object. *)
Definition ObjSelector_init `{Signature} (self : ObjSelector) : ObjSelector :=
  {| find_radius_pix := 20;
     find_radius := find_radius self;
     viewport := viewport self |}.

(** What the pickers use from geo_object and from the graphical environment. *)
Class Scene `{Signature} : Type := {
  dist_from : num -> coor -> Q;                 (* objn.dist_from(coor) *)
  linalg_norm : coor -> Q;                      (* np.linalg.norm *)
  selectable_points : Vis -> list (gi * num);
  selectable_lines : Vis -> list (gi * num);
  selectable_circles : Vis -> list (gi * num);
  update_hl_selected : list hl_item -> Vis -> Vis;
  update_hl_proposals : list hl_item -> Vis -> Vis;
  update_hl_helpers : list hl_item -> Vis -> Vis;
  py_eq : hl_item -> hl_item -> bool;           (* Python's == on stored objects *)
}.

Definition _update_find_radius `{Signature} (self : ObjSelector) : result ObjSelector :=
  let! r := py_truediv (find_radius_pix self) (scale (viewport self)) in
  Ok (set_find_radius r self).

(** Python's [min(iterable, key = ..., default = ...)]: the first element
    with the least key; a later element replaces the current one only when
    its key is strictly smaller. *)
Definition py_min {A : Type} (key : A -> Q) (xs : list A) (default : A) : A :=
  match xs with
  | [] => default
  | x :: rest =>
      fold_left (fun best y => if Qlt_le_dec (key y) (key best) then y else best) rest x
  end.

(** A picker result: [Some (obj, objn)], or [None] for the pair (None, None). *)
Definition pick `{Signature} : Type := option (gi * num).

Definition filter_t `{Signature} : Type := option (gi -> num -> bool).

Definition apply_filter `{Signature} (filter_f : filter_t) (l : list (gi * num))
  : list (gi * num) :=
  match filter_f with
  | Some f => List.filter (fun p => f (fst p) (snd p)) l
  | None => l
  end.

(** [coor_to_obj].  The filter and [dist_from] are functions of the
    collaborating modules: they are taken to return (an exception of
    theirs would pass through [coor_to_obj] unchanged). *)
Definition coor_to_obj `{Scene} (c : coor) (l : list (gi * num)) (filter_f : filter_t)
  (self : ObjSelector) : result (ObjSelector * pick) :=
  let! self := _update_find_radius self in
  let l := apply_filter filter_f l in
  let candidates := map (fun p => (dist_from (snd p) c, Some p)) l in
  let '(d, r) := py_min fst candidates (0%Q, None) in
  match find_radius self with
  | None => Raise AttributeError
  | Some radius => if py_ge d radius then Ok (self, None) else Ok (self, r)
  end.

Definition coor_to_point `{Scene} (c : coor) (filter_f : filter_t) (self : ObjSelector) :=
  coor_to_obj c (selectable_points (vis (viewport self))) filter_f self.

Definition coor_to_line `{Scene} (c : coor) (filter_f : filter_t) (self : ObjSelector) :=
  coor_to_obj c (selectable_lines (vis (viewport self))) filter_f self.

Definition coor_to_circle `{Scene} (c : coor) (filter_f : filter_t) (self : ObjSelector) :=
  coor_to_obj c (selectable_circles (vis (viewport self))) filter_f self.

Definition coor_to_cl `{Scene} (c : coor) (filter_f : filter_t) (self : ObjSelector) :=
  coor_to_obj c
    (selectable_lines (vis (viewport self)) ++ selectable_circles (vis (viewport self)))
    filter_f self.

(** A picker as it is passed to [coor_to_attempts]: [selector(coor, **kwargs)]. *)
Definition selector `{Signature} : Type :=
  coor -> filter_t -> ObjSelector -> result (ObjSelector * pick).

Fixpoint coor_to_attempts `{Signature} (c : coor) (selectors : list selector)
  (filter_f : filter_t) (self : ObjSelector) : result (ObjSelector * pick) :=
  match selectors with
  | [] => Ok (self, None)
  | sel :: rest =>
      let! (self, r) := sel c filter_f self in
      match r with
      | Some p => Ok (self, Some p)
      | None => coor_to_attempts c rest filter_f self
      end
  end.

Definition coor_to_pcl `{Scene} (c : coor) (filter_f : filter_t) (self : ObjSelector) :=
  coor_to_attempts c [coor_to_point; coor_to_cl] filter_f self.

Definition coor_to_pl `{Scene} (c : coor) (filter_f : filter_t) (self : ObjSelector) :=
  coor_to_attempts c [coor_to_point; coor_to_line] filter_f self.

Definition coor_to_pc `{Scene} (c : coor) (filter_f : filter_t) (self : ObjSelector) :=
  coor_to_attempts c [coor_to_point; coor_to_circle] filter_f self.

(** [ObjSelector.enter]. *)
Definition ObjSelector_enter `{Signature} (vp : Viewport) (self : ObjSelector) : ObjSelector :=
  set_viewport vp self.

Definition ObjSelector_leave `{Signature} (self : ObjSelector) : ObjSelector := self.

(** ** class HighlightList

    The value-level model: each attribute holds the contents of its list.
    [ini] is assigned by [save] and [reset_save] only, so it is optional.
    That no two attributes ever share one list object is the subject of
    module [HLRef] below. *)

Module HighlightList.

Record t `{Signature} : Type := mk {
  l : list (hl_item * bool);
  saved : list (hl_item * bool);
  ini : option (list (hl_item * bool));   (* None: attribute absent *)
}.

Definition init `{Signature} : t :=
  {| l := []; saved := []; ini := None |}.

Definition set_l `{Signature} (v : list (hl_item * bool)) (self : t) : t :=
  {| l := v; saved := saved self; ini := ini self |}.

Definition set_ini `{Signature} (v : list (hl_item * bool)) (self : t) : t :=
  {| l := l self; saved := saved self; ini := Some v |}.

Definition to_list `{Signature} (self : t) : list hl_item :=
  map fst (l self).

Definition add `{Signature} (args : list hl_item) (permanent : bool) (self : t) : t :=
  set_l (l self ++ map (fun arg => (arg, permanent)) args) self.

Definition load `{Signature} (self : t) : result t :=
  match ini self with
  | None => Raise AttributeError
  | Some v => Ok (set_l v self)
  end.

Definition save `{Signature} (self : t) : t :=
  set_ini (List.filter snd (l self)) self.

Definition reset_save `{Signature} (self : t) : t :=
  set_ini [] self.

Definition pop `{Signature} (self : t) : result (t * (hl_item * bool)) :=
  match rev (l self) with
  | [] => Raise IndexError
  | x :: r => Ok (set_l (rev r) self, x)
  end.

(** Python's [list.remove]: drops the first equal element. *)
Fixpoint list_remove `{Scene} (x : hl_item * bool) (v : list (hl_item * bool))
  : result (list (hl_item * bool)) :=
  match v with
  | [] => Raise ValueError
  | y :: r =>
      if py_eq (fst y) (fst x) && Bool.eqb (snd y) (snd x) then Ok r
      else let! r' := list_remove x r in Ok (y :: r')
  end.

Definition remove `{Scene} (x : hl_item) (self : t) : result t :=
  let! v := list_remove (x, true) (l self) in
  Ok (set_l v self).

Definition remove_if `{Signature} (cond : hl_item -> bool) (self : t) : t :=
  set_l (List.filter (fun e => negb (cond (fst e))) (l self)) self.

End HighlightList.

(** ** class GTool(ObjSelector)

    [base] holds the attributes inherited from [ObjSelector].  [hl_lists]
    is the list of the three highlight objects themselves, so a loop over
    it acts on [hl_proposals], [hl_selected], [hl_helpers] in that order.
    [on_reset] is looked up on the instance first ([GToolMove.move_start]
    assigns it), so it is a field; [update_basic] is always the method of
    the class.  [confirm_cycles] is a ghost counter of the calls of
    [_run_confirm]: no Python attribute corresponds to it and nothing reads
    it. *)

Record GTool `{Signature} : Type := mkGTool {
  base : ObjSelector;
  distance_to_drag_pix : Q;
  hl_proposals : HighlightList.t;
  hl_selected : HighlightList.t;
  hl_helpers : HighlightList.t;
  dragged : bool;
  click_coor : option coor;
  update : handler;
  on_reset : handler;
  drag : option handler;
  drag_start : option handler;
  confirm : option handler;
  confirm_next : option handler;
  confirm_cycles : nat;
}.

Definition set_base `{Signature} (v : ObjSelector) (self : GTool) : GTool :=
  mkGTool _ v (distance_to_drag_pix self) (hl_proposals self) (hl_selected self)
    (hl_helpers self) (dragged self) (click_coor self) (update self) (on_reset self)
    (drag self) (drag_start self) (confirm self) (confirm_next self)
    (confirm_cycles self).

Definition set_distance_to_drag_pix `{Signature} (v : Q) (self : GTool) : GTool :=
  mkGTool _ (base self) v (hl_proposals self) (hl_selected self) (hl_helpers self)
    (dragged self) (click_coor self) (update self) (on_reset self) (drag self)
    (drag_start self) (confirm self) (confirm_next self) (confirm_cycles self).

Definition set_hl_proposals `{Signature} (v : HighlightList.t) (self : GTool) : GTool :=
  mkGTool _ (base self) (distance_to_drag_pix self) v (hl_selected self)
    (hl_helpers self) (dragged self) (click_coor self) (update self) (on_reset self)
    (drag self) (drag_start self) (confirm self) (confirm_next self)
    (confirm_cycles self).

Definition set_hl_selected `{Signature} (v : HighlightList.t) (self : GTool) : GTool :=
  mkGTool _ (base self) (distance_to_drag_pix self) (hl_proposals self) v
    (hl_helpers self) (dragged self) (click_coor self) (update self) (on_reset self)
    (drag self) (drag_start self) (confirm self) (confirm_next self)
    (confirm_cycles self).

Definition set_hl_helpers `{Signature} (v : HighlightList.t) (self : GTool) : GTool :=
  mkGTool _ (base self) (distance_to_drag_pix self) (hl_proposals self)
    (hl_selected self) v (dragged self) (click_coor self) (update self) (on_reset self)
    (drag self) (drag_start self) (confirm self) (confirm_next self)
    (confirm_cycles self).

Definition set_dragged `{Signature} (v : bool) (self : GTool) : GTool :=
  mkGTool _ (base self) (distance_to_drag_pix self) (hl_proposals self)
    (hl_selected self) (hl_helpers self) v (click_coor self) (update self)
    (on_reset self) (drag self) (drag_start self) (confirm self) (confirm_next self)
    (confirm_cycles self).

Definition set_click_coor `{Signature} (v : option coor) (self : GTool) : GTool :=
  mkGTool _ (base self) (distance_to_drag_pix self) (hl_proposals self)
    (hl_selected self) (hl_helpers self) (dragged self) v (update self) (on_reset self)
    (drag self) (drag_start self) (confirm self) (confirm_next self)
    (confirm_cycles self).

Definition set_update `{Signature} (v : handler) (self : GTool) : GTool :=
  mkGTool _ (base self) (distance_to_drag_pix self) (hl_proposals self)
    (hl_selected self) (hl_helpers self) (dragged self) (click_coor self) v
    (on_reset self) (drag self) (drag_start self) (confirm self) (confirm_next self)
    (confirm_cycles self).

Definition set_on_reset `{Signature} (v : handler) (self : GTool) : GTool :=
  mkGTool _ (base self) (distance_to_drag_pix self) (hl_proposals self)
    (hl_selected self) (hl_helpers self) (dragged self) (click_coor self) (update self)
    v (drag self) (drag_start self) (confirm self) (confirm_next self)
    (confirm_cycles self).

Definition set_drag `{Signature} (v : option handler) (self : GTool) : GTool :=
  mkGTool _ (base self) (distance_to_drag_pix self) (hl_proposals self)
    (hl_selected self) (hl_helpers self) (dragged self) (click_coor self) (update self)
    (on_reset self) v (drag_start self) (confirm self) (confirm_next self)
    (confirm_cycles self).

Definition set_drag_start `{Signature} (v : option handler) (self : GTool) : GTool :=
  mkGTool _ (base self) (distance_to_drag_pix self) (hl_proposals self)
    (hl_selected self) (hl_helpers self) (dragged self) (click_coor self) (update self)
    (on_reset self) (drag self) v (confirm self) (confirm_next self)
    (confirm_cycles self).

Definition set_confirm `{Signature} (v : option handler) (self : GTool) : GTool :=
  mkGTool _ (base self) (distance_to_drag_pix self) (hl_proposals self)
    (hl_selected self) (hl_helpers self) (dragged self) (click_coor self) (update self)
    (on_reset self) (drag self) (drag_start self) v (confirm_next self)
    (confirm_cycles self).

Definition set_confirm_next `{Signature} (v : option handler) (self : GTool) : GTool :=
  mkGTool _ (base self) (distance_to_drag_pix self) (hl_proposals self)
    (hl_selected self) (hl_helpers self) (dragged self) (click_coor self) (update self)
    (on_reset self) (drag self) (drag_start self) (confirm self) v (confirm_cycles self).

Definition set_confirm_cycles `{Signature} (v : nat) (self : GTool) : GTool :=
  mkGTool _ (base self) (distance_to_drag_pix self) (hl_proposals self)
    (hl_selected self) (hl_helpers self) (dragged self) (click_coor self) (update self)
    (on_reset self) (drag self) (drag_start self) (confirm self) (confirm_next self) v.

(** [self.vis] is [self.viewport.vis]: a call on [self.vis] changes the one
    graphical environment. *)
Definition self_vis `{Signature} (self : GTool) : Vis :=
  vis (viewport (base self)).

Definition self_env `{Signature} (self : GTool) : Env :=
  env (viewport (base self)).

Definition self_scale `{Signature} (self : GTool) : Q :=
  scale (viewport (base self)).

Definition set_vis `{Signature} (v : Vis) (self : GTool) : GTool :=
  set_base
    (set_viewport
       {| scale := self_scale self; vis := v; env := self_env self |}
       (base self))
    self.

Definition set_env `{Signature} (v : Env) (self : GTool) : GTool :=
  set_base
    (set_viewport
       {| scale := self_scale self; vis := self_vis self; env := v |}
       (base self))
    self.

(** What a concrete tool class provides: the meaning of its methods when
    they are called through an attribute, and which of them are
    [update_basic] and the class's [on_reset]. *)
Class Tool `{Scene} : Type := {
  call : callable -> list value -> GTool -> result GTool;
  m_update_basic : callable;
  m_on_reset : callable;
}.

Definition run_tuple `{Tool} (f : handler) (args : list value) (self : GTool)
  : result GTool :=
  match f with
  | HTuple f0 extra => call f0 (args ++ extra) self
  | HFun f0 => call f0 args self
  end.

(** [GTool.__init__]. *)
Definition GTool_init `{Signature} (self : GTool) : GTool :=
  let self := set_base (ObjSelector_init (base self)) self in
  let self := set_distance_to_drag_pix 5%Q self in
  let self := set_hl_proposals HighlightList.init self in
  let self := set_hl_selected HighlightList.init self in
  set_hl_helpers HighlightList.init self.

Definition _hl_reset `{Signature} (self : GTool) : GTool :=
  let self := set_hl_proposals (HighlightList.reset_save (hl_proposals self)) self in
  let self := set_hl_selected (HighlightList.reset_save (hl_selected self)) self in
  set_hl_helpers (HighlightList.reset_save (hl_helpers self)) self.

Definition _hl_load `{Signature} (self : GTool) : result GTool :=
  let! p := HighlightList.load (hl_proposals self) in
  let self := set_hl_proposals p self in
  let! s := HighlightList.load (hl_selected self) in
  let self := set_hl_selected s self in
  let! h := HighlightList.load (hl_helpers self) in
  Ok (set_hl_helpers h self).

Definition _hl_save `{Signature} (self : GTool) : GTool :=
  let self := set_hl_proposals (HighlightList.save (hl_proposals self)) self in
  let self := set_hl_selected (HighlightList.save (hl_selected self)) self in
  set_hl_helpers (HighlightList.save (hl_helpers self)) self.

Definition _hl_update `{Scene} (self : GTool) : GTool :=
  let self :=
    set_vis (update_hl_selected (HighlightList.to_list (hl_selected self)) (self_vis self))
      self in
  let self :=
    set_vis (update_hl_proposals (HighlightList.to_list (hl_proposals self)) (self_vis self))
      self in
  set_vis (update_hl_helpers (HighlightList.to_list (hl_helpers self)) (self_vis self)) self.

Definition cursor_away `{Scene} (self : GTool) : result GTool :=
  let! self := _hl_load self in
  Ok (_hl_update self).

Definition hl_propose `{Signature} (args : list hl_item) (permanent : bool) (self : GTool)
  : GTool :=
  set_hl_proposals (HighlightList.add args permanent (hl_proposals self)) self.

Definition hl_select `{Signature} (args : list hl_item) (permanent : bool) (self : GTool)
  : GTool :=
  set_hl_selected (HighlightList.add args permanent (hl_selected self)) self.

Definition hl_add_helper `{Signature} (args : list hl_item) (permanent : bool) (self : GTool)
  : GTool :=
  set_hl_helpers (HighlightList.add args permanent (hl_helpers self)) self.

(** [select_by_coor]: [permanent] defaults to True at the callers that
    leave it out. *)
Definition select_by_coor `{Signature} (c : coor) (coor_to_x : selector)
  (permanent : bool) (filter_f : filter_t) (self : GTool) : result (GTool * pick) :=
  let! (b, r) := coor_to_x c filter_f (base self) in
  let self := set_base b self in
  match r with
  | Some (obj, nobj) => Ok (hl_select [HGi obj] permanent self, Some (obj, nobj))
  | None => Ok (self, None)
  end.

Definition select_pcl `{Scene} (c : coor) (permanent : bool) (filter_f : filter_t)
  (self : GTool) : result (GTool * pick) :=
  select_by_coor c coor_to_pcl permanent filter_f self.

Definition _pre_update `{Signature} (self : GTool) : result GTool :=
  let! self := _hl_load self in
  let! b := _update_find_radius (base self) in
  let self := set_base b self in
  let self := set_drag None self in
  let self := set_drag_start None self in
  let self := set_confirm None self in
  Ok (set_confirm_next None self).

Definition _run_update `{Tool} (c : coor) (self : GTool) : result GTool :=
  let! self := _pre_update self in
  let! self := run_tuple (update self) [VCoor c] self in
  Ok (_hl_update self).

Definition _run_confirm `{Tool} (self : GTool) : result GTool :=
  let self := set_confirm_cycles (S (confirm_cycles self)) self in   (* ghost *)
  let! self :=
    match confirm self with
    | Some f => run_tuple f [] self
    | None => Ok self
    end in
  match confirm_next self with
  | Some next =>
      let self := set_update next self in
      Ok (_hl_save self)
  | None =>
      let self := _hl_reset self in
      let self := set_update (HFun m_update_basic) self in
      run_tuple (on_reset self) [] self
  end.

Definition reset `{Tool} (self : GTool) : result GTool :=
  let self := set_dragged false self in
  let self := set_click_coor None self in
  let self := _hl_reset self in
  let! self := _pre_update self in
  let self := _hl_update self in
  let self := set_update (HFun m_update_basic) self in
  run_tuple (on_reset self) [] self.

Definition button_press `{Tool} (c : coor) (self : GTool) : result GTool :=
  let! self :=
    match click_coor self with
    | Some _ => reset self
    | None => Ok self
    end in
  let! self := _run_update c self in
  match drag self with
  | None =>
      let! self := _run_confirm self in
      _run_update c self
  | Some _ =>
      let self := set_click_coor (Some c) self in
      let self := set_dragged false self in
      let! self :=
        match drag_start self with
        | Some f => run_tuple f [] self
        | None => Ok self
        end in
      Ok (_hl_save self)
  end.

Definition button_release `{Tool} (c : coor) (self : GTool) : result GTool :=
  let! self :=
    match click_coor self with
    | Some _ =>
        let self := set_click_coor None self in
        let self := set_dragged false self in
        _run_confirm self
    | None => Ok self
    end in
  _run_update c self.

Definition motion `{Tool} (c : coor) (button_pressed : bool) (self : GTool)
  : result GTool :=
  let! self :=
    match click_coor self with
    | Some cc =>
        match button_pressed with
        | false => reset self
        | true =>
            match dragged self with
            | false =>
                let d := linalg_norm (coor_sub c cc) in
                let! thr := py_truediv (distance_to_drag_pix self) (self_scale self) in
                if py_ge d thr then
                  match drag self with
                  | None => Raise AssertionError
                  | Some f => Ok (set_dragged true (set_update f self))
                  end
                else Ok self
            | true => Ok self
            end
        end
    | None => Ok self
    end in
  match click_coor self, dragged self with
  | Some _, false => Ok self
  | _, _ => _run_update c self
  end.

(** [GTool.enter]; the alias [self.tools = self.env.tools] is read through
    [self_env]. *)
Definition GTool_enter `{Tool} (vp : Viewport) (self : GTool) : result GTool :=
  let self := set_base (ObjSelector_enter vp (base self)) self in
  reset self.

Definition GTool_leave `{Tool} (self : GTool) : result GTool :=
  let! self := reset self in
  Ok (set_base (ObjSelector_leave (base self)) self).

(** ** class GToolHide(GTool) *)

Module GToolHide.

Inductive method : Type :=
| UpdateBasic
| UpdateUnhide
| SetShowAll
| VisHide        (* the bound method self.vis.hide *)
| Unhide
| OnReset.

(** Modelled from the spec: the graphical environment is not in gtool.py;
    section 6 lists what it exposes to this tool, "per-object hidden flag
    storage and a showAllMode flag".  [gi_to_hidden] is that storage,
    [show_all_mode] the flag, [vis_rest] everything else it holds. *)
Record HVis (R : Type) : Type := mkHVis {
  show_all_mode : bool;
  gi_to_hidden : gi -> bool;
  vis_rest : R;
}.
Arguments mkHVis {R}.
Arguments show_all_mode {R}.
Arguments gi_to_hidden {R}.
Arguments vis_rest {R}.

Definition set_show_all_mode {R : Type} (b : bool) (v : HVis R) : HVis R :=
  {| show_all_mode := b; gi_to_hidden := gi_to_hidden v; vis_rest := vis_rest v |}.

(** [gi_to_hidden[obj] = b] *)
Definition set_hidden {R : Type} (obj : gi) (b : bool) (v : HVis R) : HVis R :=
  {| show_all_mode := show_all_mode v;
     gi_to_hidden := fun g => if Nat.eqb g obj then b else gi_to_hidden v g;
     vis_rest := vis_rest v |}.

Class World : Type := {
  w_num : Type;
  w_rest : Type;
  w_env : Type;
}.

#[global] Instance signature `{World} : Signature := {|
  num := w_num;
  Vis := HVis w_rest;
  Env := w_env;
  grasp := unit;
  callable := method;
|}.

(** The collaborators' methods that the hide tool calls. *)
Class Collab `{World} : Type := {
  scene :: Scene;
  vis_hide : gi -> Vis -> Vis;                  (* self.vis.hide(obj) *)
  vis_refresh : Vis -> Vis;                     (* self.vis.refresh() *)
  set_cursor_by_tool : Viewport -> Viewport;    (* self.viewport.set_cursor_by_tool() *)
}.
#[global] Existing Instance scene.

Definition set_show_all `{Collab} (value : bool) (self : GTool) : GTool :=
  if negb (Bool.eqb (show_all_mode (self_vis self)) value) then
    let self := set_vis (set_show_all_mode value (self_vis self)) self in
    let self :=
      set_base (set_viewport (set_cursor_by_tool (viewport (base self))) (base self)) self in
    set_vis (vis_refresh (self_vis self)) self
  else self.

Definition update_basic `{Collab} (c : coor) (self : GTool) : result GTool :=
  let! (self, r) := select_pcl c true None self in
  match r with
  | None =>
      let self := set_confirm (Some (HTuple SetShowAll [VBool true])) self in
      Ok (set_confirm_next (Some (HFun UpdateUnhide)) self)
  | Some (obj, _) =>
      Ok (set_confirm (Some (HTuple VisHide [VObj obj])) self)
  end.

Definition update_unhide `{Collab} (c : coor) (self : GTool) : result GTool :=
  let is_hidden := fun (g : gi) (_ : num) => gi_to_hidden (self_vis self) g in
  let! (self, r) := select_pcl c true (Some is_hidden) self in
  match r with
  | None => Ok (set_confirm (Some (HTuple SetShowAll [VBool false])) self)
  | Some (obj, _) => Ok (set_confirm (Some (HTuple Unhide [VObj obj])) self)
  end.

Definition unhide `{Collab} (obj : gi) (self : GTool) : GTool :=
  let self := set_vis (set_hidden obj false (self_vis self)) self in
  set_show_all false self.

Definition on_reset `{Collab} (self : GTool) : GTool :=
  set_show_all false self.

(** Calling a stored method with the arguments [run_tuple] assembled. *)
Definition hide_call `{Collab} (f : method) (args : list value) (self : GTool)
  : result GTool :=
  match f, args with
  | UpdateBasic, [VCoor c] => update_basic c self
  | UpdateUnhide, [VCoor c] => update_unhide c self
  | SetShowAll, [VBool b] => Ok (set_show_all b self)
  | VisHide, [VObj o] => Ok (set_vis (vis_hide o (self_vis self)) self)
  | Unhide, [VObj o] => Ok (unhide o self)
  | OnReset, [] => Ok (on_reset self)
  | _, _ => Raise TypeError
  end.

#[global] Instance tool_class `{Collab} : Tool := {|
  call := hide_call;
  m_update_basic := UpdateBasic;
  m_on_reset := OnReset;
|}.

Definition leave `{Collab} (self : GTool) : result GTool :=
  let self := set_show_all false self in
  GTool_leave self.

End GToolHide.

(** ** class GToolMove(GTool) *)

Module GToolMove.

Inductive method : Type :=
| UpdateBasic
| MoveStart
| MoveObj
| SetCursorByTool   (* the bound method self.viewport.set_cursor_by_tool *)
| OnReset.

(** Python's [xs[k]] for an int [k]: negative indices count from the end. *)
Definition py_index {A : Type} (xs : list A) (k : Z) : result A :=
  let n := Z.of_nat (length xs) in
  let k' := if (k <? 0)%Z then (n + k)%Z else k in
  if ((0 <=? k') && (k' <? n))%Z then
    match nth_error xs (Z.to_nat k') with
    | Some x => Ok x
    | None => Raise IndexError
    end
  else Raise IndexError.

(** Modelled from the spec: tool_step.ToolStep is not in gtool.py; a step
    has the tool that produced it, "per-step mutable hyper-parameters"
    (section 6) and the graphical indices of its arguments. *)
Record Step (T : Type) : Type := mkStep {
  tool : T;
  hyper_params : list Z;
  local_args : list gi;
}.
Arguments mkStep {T}.
Arguments tool {T}.
Arguments hyper_params {T}.
Arguments local_args {T}.

(** Modelled from the spec: the logical environment holds the construction
    steps; a step object is named by its position in [steps], so that the
    step captured in the [drag] tuple and the step the environment
    recomputes are one object. *)
Record MEnv (T R : Type) : Type := mkMEnv {
  steps : nat -> Step T;
  env_rest : R;
}.
Arguments mkMEnv {T R}.
Arguments steps {T R}.
Arguments env_rest {T R}.

(** [step.hyper_params = hp] on the step object at position [i]. *)
Definition set_hyper_params {T R : Type} (i : nat) (hp : list Z) (e : MEnv T R)
  : MEnv T R :=
  {| steps := fun j =>
       if Nat.eqb j i then
         {| tool := tool (steps e i); hyper_params := hp;
            local_args := local_args (steps e i) |}
       else steps e j;
     env_rest := env_rest e |}.

Class World : Type := {
  w_num : Type;
  w_vis : Type;
  w_tool : Type;
  w_env_rest : Type;
  w_grasp : Type;
}.

#[global] Instance signature `{World} : Signature := {|
  num := w_num;
  Vis := w_vis;
  Env := MEnv w_tool w_env_rest;
  grasp := w_grasp;
  callable := method;
|}.

(** The collaborators' methods that the move tool calls. *)
Class Collab `{World} : Type := {
  scene :: Scene;
  gi_to_step : Env -> gi -> nat;                            (* env.gi_to_step(obj) *)
  gi_to_num : Vis -> gi -> num;                             (* vis.gi_to_num(gi) *)
  get_grasp : w_tool -> coor -> list num -> grasp;          (* tool.get_grasp *)
  new_hyperpar : w_tool -> grasp -> coor -> list num -> list Z;  (* tool.new_hyperpar *)
  is_Intersection : w_tool -> bool;                         (* isinstance(tool, Intersection) *)
  ordered_candidates : w_tool -> list num -> list coor;     (* tool.ordered_candidates *)
  Point : coor -> num;                                      (* geo_object.Point *)
  refresh_steps : Viewport -> Viewport;                     (* env.refresh_steps(catch_errors = True) *)
  update_hyperpar_hook : nat -> Viewport -> Viewport;       (* env.update_hyperpar_hook(step) *)
  set_cursor_by_tool : Viewport -> Viewport;
  set_move_mode : bool -> Vis -> Vis;                       (* vis.move_mode = b *)
  vis_refresh : Vis -> Vis;
}.
#[global] Existing Instance scene.

Definition on_viewport `{Signature} (f : Viewport -> Viewport) (self : GTool) : GTool :=
  set_base (set_viewport (f (viewport (base self))) (base self)) self.

(** [GToolMove.__init__]. *)
Definition init `{Collab} (self : GTool) : GTool :=
  let self := GTool_init self in
  set_distance_to_drag_pix 0%Q self.

Definition update_basic `{Collab} (c : coor) (self : GTool) : result GTool :=
  let! (self, r) := select_pcl c false None self in
  match r with
  | None => Ok self
  | Some (obj, objn) =>
      let step := gi_to_step (self_env self) obj in
      let num_args :=
        map (gi_to_num (self_vis self)) (local_args (steps (self_env self) step)) in
      let num_res := [gi_to_num (self_vis self) obj] in
      let grasp := get_grasp (tool (steps (self_env self) step)) c (num_args ++ num_res) in
      let self :=
        set_drag (Some (HTuple MoveObj [VStep step; VGrasp grasp; VNums num_args])) self in
      Ok (set_drag_start (Some (HFun MoveStart)) self)
  end.

(** [move_start].  The stored hook is the method of the viewport that the
    tool holds when [move_start] runs; [SetCursorByTool] stands for it as
    long as the tool is not entered on another viewport object. *)
Definition move_start `{Collab} (self : GTool) : GTool :=
  let self := on_viewport set_cursor_by_tool self in
  set_on_reset (HFun SetCursorByTool) self.

(** [move_obj].  The calls into movable_tools, geo_object and the logical
    environment ([new_hyperpar], [ordered_candidates], [Point],
    [refresh_steps], [update_hyperpar_hook]) are taken to return, and the
    hyper-parameters to be a sequence of ints; what [move_obj] can raise
    by itself is the unpacking [i, = ...] and the indexing
    [intersections[1 - i]]. *)
Definition move_obj `{Collab} (c : coor) (step : nat) (grasp : w_grasp)
  (num_args : list num) (self : GTool) : result GTool :=
  let tool := tool (steps (self_env self) step) in
  let self :=
    set_env (set_hyper_params step (new_hyperpar tool grasp c num_args) (self_env self))
      self in
  let! self :=
    if is_Intersection tool then
      let intersections := ordered_candidates tool num_args in
      match hyper_params (steps (self_env self) step) with
      | [i] =>
          let! alt := py_index intersections (1 - i)%Z in
          Ok (hl_propose [HNum (Point alt)] false self)
      | _ => Raise ValueError
      end
    else Ok self in
  let self := on_viewport refresh_steps self in
  Ok (on_viewport (update_hyperpar_hook step) self).

Definition move_call `{Collab} (f : method) (args : list value) (self : GTool)
  : result GTool :=
  match f, args with
  | UpdateBasic, [VCoor c] => update_basic c self
  | MoveStart, [] => Ok (move_start self)
  | MoveObj, [VCoor c; VStep step; VGrasp grasp; VNums num_args] =>
      move_obj c step grasp num_args self
  | SetCursorByTool, [] => Ok (on_viewport set_cursor_by_tool self)
  | OnReset, [] => Ok self
  | _, _ => Raise TypeError
  end.

#[global] Instance tool_class `{Collab} : Tool := {|
  call := move_call;
  m_update_basic := UpdateBasic;
  m_on_reset := OnReset;
|}.

Definition enter `{Collab} (vp : Viewport) (self : GTool) : result GTool :=
  let self := set_base (ObjSelector_enter vp (base self)) self in
  let! self := reset self in
  let self := set_vis (set_move_mode true (self_vis self)) self in
  Ok (set_vis (vis_refresh (self_vis self)) self).

Definition leave `{Collab} (self : GTool) : result GTool :=
  let self := set_vis (set_move_mode false (self_vis self)) self in
  let self := set_vis (vis_refresh (self_vis self)) self in
  GTool_leave self.

End GToolMove.

(** ** HighlightList at the level of list objects

    Python lists are mutable objects: [self.l.extend], [self.l.pop] and
    [self.l.remove] change the list object that [self.l] names, while
    [list(...)] and a list comprehension build a new one.  Here the
    attributes hold references into a store of list objects, so that
    sharing between [l] and [ini] would be visible. *)

Module HLRef.

Record store `{Signature} : Type := mkStore {
  cell : nat -> list (hl_item * bool);   (* contents of each list object *)
  next : nat;                            (* first reference not yet in use *)
}.

Record t : Type := mk {
  l : nat;
  saved : nat;
  ini : option nat;   (* None: attribute absent *)
}.

Definition set_l (p : nat) (self : t) : t :=
  {| l := p; saved := saved self; ini := ini self |}.

Definition set_ini (p : nat) (self : t) : t :=
  {| l := l self; saved := saved self; ini := Some p |}.

(** A new list object with contents [v]. *)
Definition alloc `{Signature} (v : list (hl_item * bool)) (st : store) : store * nat :=
  ({| cell := fun q => if Nat.eqb q (next st) then v else cell st q;
      next := S (next st) |},
   next st).

(** In-place change of the list object [p]. *)
Definition write `{Signature} (p : nat) (v : list (hl_item * bool)) (st : store) : store :=
  {| cell := fun q => if Nat.eqb q p then v else cell st q;
     next := next st |}.

Definition init `{Signature} (st : store) : store * t :=
  let (st, a) := alloc [] st in
  let (st, b) := alloc [] st in
  (st, {| l := a; saved := b; ini := None |}).

Definition to_list `{Signature} (st : store) (self : t) : list hl_item :=
  map fst (cell st (l self)).

Definition add `{Signature} (args : list hl_item) (permanent : bool) (st : store) (self : t)
  : store * t :=
  (write (l self) (cell st (l self) ++ map (fun arg => (arg, permanent)) args) st, self).

Definition load `{Signature} (st : store) (self : t) : result (store * t) :=
  match ini self with
  | None => Raise AttributeError
  | Some p =>
      let (st, q) := alloc (cell st p) st in
      Ok (st, set_l q self)
  end.

Definition save `{Signature} (st : store) (self : t) : store * t :=
  let (st, q) := alloc (List.filter snd (cell st (l self))) st in
  (st, set_ini q self).

Definition reset_save `{Signature} (st : store) (self : t) : store * t :=
  let (st, q) := alloc [] st in
  (st, set_ini q self).

Definition pop `{Signature} (st : store) (self : t)
  : result (store * t * (hl_item * bool)) :=
  match rev (cell st (l self)) with
  | [] => Raise IndexError
  | x :: r => Ok (write (l self) (rev r) st, self, x)
  end.

Definition remove `{Scene} (x : hl_item) (st : store) (self : t) : result (store * t) :=
  let! v := HighlightList.list_remove (x, true) (cell st (l self)) in
  Ok (write (l self) v st, self).

Definition remove_if `{Signature} (cond : hl_item -> bool) (st : store) (self : t)
  : store * t :=
  let (st, q) :=
    alloc (List.filter (fun e => negb (cond (fst e))) (cell st (l self))) st in
  (st, set_l q self).

(** The calls that change the working list. *)
Inductive mutation `{Signature} : Type :=
| MAdd (args : list hl_item) (permanent : bool)
| MPop
| MRemove (x : hl_item)
| MRemoveIf (cond : hl_item -> bool).

Definition mutate `{Scene} (m : mutation) (st : store) (self : t) : result (store * t) :=
  match m with
  | MAdd args permanent => Ok (add args permanent st self)
  | MPop => let! (r, _) := pop st self in Ok r
  | MRemove x => remove x st self
  | MRemoveIf cond => Ok (remove_if cond st self)
  end.

Fixpoint mutate_all `{Scene} (ms : list mutation) (st : store) (self : t)
  : result (store * t) :=
  match ms with
  | [] => Ok (st, self)
  | m :: rest =>
      let! (st, self) := mutate m st self in
      mutate_all rest st self
  end.

(** The contents that the references stand for. *)
Definition contents `{Signature} (st : store) (self : t) : HighlightList.t :=
  {| HighlightList.l := cell st (l self);
     HighlightList.saved := cell st (saved self);
     HighlightList.ini := option_map (cell st) (ini self) |}.

(** No list object is named by two attributes. *)
Definition separated (self : t) : Prop :=
  l self <> saved self /\
  forall p, ini self = Some p -> p <> l self /\ p <> saved self.

End HLRef.

(** ** Two small scenes on which the tools can be run

    Points only, on which the taxicab length below is the distance; on the
    axis-parallel data used here it is the Euclidean one.  The highlight
    sinks of the graphical environment do nothing. *)

Definition taxicab (v : coor) : Q := (Qabs (fst v) + Qabs (snd v))%Q.

Definition coor_eqb (p q : coor) : bool :=
  Qeq_bool (fst p) (fst q) && Qeq_bool (snd p) (snd q).

Definition from_Ok {A : Type} (default : A) (r : result A) : A :=
  match r with
  | Ok a => a
  | Raise _ => default
  end.

Module DemoHide.

#[local] Instance world : GToolHide.World := {|
  GToolHide.w_num := coor;
  GToolHide.w_rest := list (gi * coor);
  GToolHide.w_env := unit;
|}.

Definition item_eqb (a b : hl_item) : bool :=
  match a, b with
  | HGi x, HGi y => Nat.eqb x y
  | HNum p, HNum q => coor_eqb p q
  | _, _ => false
  end.

(** An object can be picked when it is not hidden, or in show-all mode. *)
Definition visible_points (v : Vis) : list (gi * num) :=
  List.filter
    (fun p => GToolHide.show_all_mode v || negb (GToolHide.gi_to_hidden v (fst p)))
    (GToolHide.vis_rest v).

Definition scene : Scene := {|
  dist_from := fun n c => taxicab (coor_sub n c);
  linalg_norm := taxicab;
  selectable_points := visible_points;
  selectable_lines := fun _ => [];
  selectable_circles := fun _ => [];
  update_hl_selected := fun _ v => v;
  update_hl_proposals := fun _ v => v;
  update_hl_helpers := fun _ v => v;
  py_eq := item_eqb;
|}.

#[local] Instance collab : GToolHide.Collab := {|
  GToolHide.scene := scene;
  GToolHide.vis_hide := fun o v => GToolHide.set_hidden o true v;
  GToolHide.vis_refresh := fun v => v;
  GToolHide.set_cursor_by_tool := fun vp => vp;
|}.

(** Object 0 at the origin, visible; object 1 at (100, 0), hidden. *)
Definition the_vis : Vis :=
  {| GToolHide.show_all_mode := false;
     GToolHide.gi_to_hidden := fun g => Nat.eqb g 1;
     GToolHide.vis_rest := [(0, (0, 0)%Q); (1, (100, 0)%Q)] |}.

Definition the_viewport : Viewport :=
  {| scale := 1; vis := the_vis; env := tt |}.

(** The allocated object before [__init__]: what the attributes hold is
    of no account, except [on_reset], which is found on the class. *)
Definition blank : GTool :=
  mkGTool _ (mkObjSelector _ 0 None the_viewport) 0
    HighlightList.init HighlightList.init HighlightList.init
    false None (HFun GToolHide.OnReset) (HFun GToolHide.OnReset)
    None None None None 0.

(** The tool after construction and activation. *)
Definition entered : GTool :=
  from_Ok blank (GTool_enter the_viewport (GTool_init blank)).

(** After a click on empty space. *)
Definition after_empty_click : GTool :=
  from_Ok blank (button_press (50, 50)%Q entered).

(** After a further click on the hidden object. *)
Definition after_unhide_click : GTool :=
  from_Ok blank (button_press (100, 0)%Q after_empty_click).

End DemoHide.

Module DemoMove.

#[local] Instance world : GToolMove.World := {|
  GToolMove.w_num := coor;
  GToolMove.w_vis := list (gi * coor);
  GToolMove.w_tool := bool;          (* true: an Intersection tool *)
  GToolMove.w_env_rest := unit;
  GToolMove.w_grasp := unit;
|}.

Definition item_eqb (a b : hl_item) : bool :=
  match a, b with
  | HGi x, HGi y => Nat.eqb x y
  | HNum p, HNum q => coor_eqb p q
  | _, _ => false
  end.

Definition scene : Scene := {|
  dist_from := fun n c => taxicab (coor_sub n c);
  linalg_norm := taxicab;
  selectable_points := fun v => v;
  selectable_lines := fun _ => [];
  selectable_circles := fun _ => [];
  update_hl_selected := fun _ v => v;
  update_hl_proposals := fun _ v => v;
  update_hl_helpers := fun _ v => v;
  py_eq := item_eqb;
|}.

(** The two intersections are (1, 0) and (-1, 0); the one on the side of
    the cursor is selected. *)
#[local] Instance collab : GToolMove.Collab := {|
  GToolMove.scene := scene;
  GToolMove.gi_to_step := fun _ g => g;
  GToolMove.gi_to_num := fun v g => nth g (map snd v) (0, 0)%Q;
  GToolMove.get_grasp := fun _ _ _ => tt;
  GToolMove.new_hyperpar := fun _ _ c _ => [if Qle_bool 0 (fst c) then 0%Z else 1%Z];
  GToolMove.is_Intersection := fun t => t;
  GToolMove.ordered_candidates := fun _ _ => [(1, 0)%Q; (-1, 0)%Q];
  GToolMove.Point := fun c => c;
  GToolMove.refresh_steps := fun vp => vp;
  GToolMove.update_hyperpar_hook := fun _ vp => vp;
  GToolMove.set_cursor_by_tool := fun vp => vp;
  GToolMove.set_move_mode := fun _ v => v;
  GToolMove.vis_refresh := fun v => v;
|}.

(** Object 0, at (1, 0), is the result of step 0, an intersection. *)
Definition the_viewport : Viewport :=
  {| scale := 1;
     vis := [(0, (1, 0)%Q)];
     env := {| GToolMove.steps := fun _ =>
                 {| GToolMove.tool := true;
                    GToolMove.hyper_params := [0%Z];
                    GToolMove.local_args := [] |};
               GToolMove.env_rest := tt |} |}.

Definition blank : GTool :=
  mkGTool _ (mkObjSelector _ 0 None the_viewport) 0
    HighlightList.init HighlightList.init HighlightList.init
    false None (HFun GToolMove.OnReset) (HFun GToolMove.OnReset)
    None None None None 0.

Definition entered : GTool :=
  from_Ok blank (GToolMove.enter the_viewport (GToolMove.init blank)).

(** After a press on object 0. *)
Definition pressed : GTool :=
  from_Ok blank (button_press (1, 0)%Q entered).

(** After the pointer has then moved, button held, to (3, 0). *)
Definition dragging : GTool :=
  from_Ok blank (motion (3, 0)%Q true pressed).

(** The pointer moves to (3, 0) with the button reported as released. *)
Definition moved_button_up : GTool :=
  from_Ok blank (motion (3, 0)%Q false pressed).

(** The press is cancelled instead. *)
Definition cancelled : GTool :=
  from_Ok blank (reset pressed).

End DemoMove.

(** * The vocabulary of the statements *)

(** [m] is the first element of [xs] with the least key. *)
Definition first_min {A : Type} (key : A -> Q) (m : A) (xs : list A) : Prop :=
  exists pre post,
    xs = pre ++ m :: post /\
    (forall y, In y pre -> (key m < key y)%Q) /\
    (forall y, In y post -> (key m <= key y)%Q).

Definition min_step {A : Type} (key : A -> Q) (best y : A) : A :=
  if Qlt_le_dec (key y) (key best) then y else best.

(** [p] passes the optional filter. *)
Definition passes `{Signature} (filter_f : filter_t) (p : gi * num) : Prop :=
  match filter_f with
  | Some f => f (fst p) (snd p) = true
  | None => True
  end.

(** [tried c f sels s s']: every picker of [sels] was run in order from
    state [s], each returned none, and the last left state [s']. *)
Inductive tried `{Signature} (c : coor) (filter_f : filter_t)
  : list selector -> ObjSelector -> ObjSelector -> Prop :=
| tried_nil (s : ObjSelector) : tried c filter_f [] s s
| tried_cons (sel : selector) (rest : list selector) (s s1 s2 : ObjSelector) :
    sel c filter_f s = Ok (s1, None) ->
    tried c filter_f rest s1 s2 ->
    tried c filter_f (sel :: rest) s s2.

(** The baseline [b] is a list object of its own, with contents [v], and
    is not the working list. *)
Definition baseline_apart `{Signature} (b : nat) (v : list (hl_item * bool))
  (st : HLRef.store) (self : HLRef.t) : Prop :=
  HLRef.ini self = Some b /\
  b <> HLRef.l self /\
  b < HLRef.next st /\
  HLRef.cell st b = v.

Definition allocated `{Signature} (st : HLRef.store) (self : HLRef.t) : Prop :=
  HLRef.l self < HLRef.next st /\
  HLRef.saved self < HLRef.next st /\
  forall p, HLRef.ini self = Some p -> p < HLRef.next st.

(** The baselines of the three highlight lists. *)
Definition baselines `{Signature} (s : GTool)
  : option (list (hl_item * bool)) * option (list (hl_item * bool))
    * option (list (hl_item * bool)) :=
  (HighlightList.ini (hl_proposals s),
   HighlightList.ini (hl_selected s),
   HighlightList.ini (hl_helpers s)).

(** The working lists of the three highlight lists. *)
Definition workings `{Signature} (s : GTool)
  : list (hl_item * bool) * list (hl_item * bool) * list (hl_item * bool) :=
  (HighlightList.l (hl_proposals s),
   HighlightList.l (hl_selected s),
   HighlightList.l (hl_helpers s)).

(** The permanent entries of the three working lists. *)
Definition sticky_workings `{Signature} (s : GTool)
  : option (list (hl_item * bool)) * option (list (hl_item * bool))
    * option (list (hl_item * bool)) :=
  (Some (List.filter snd (HighlightList.l (hl_proposals s))),
   Some (List.filter snd (HighlightList.l (hl_selected s))),
   Some (List.filter snd (HighlightList.l (hl_helpers s)))).

(** What neither branch of the confirm cycle touches. *)
Definition confirm_frame `{Signature} (s s' : GTool) : Prop :=
  base s' = base s /\
  workings s' = workings s /\
  click_coor s' = click_coor s /\
  dragged s' = dragged s /\
  on_reset s' = on_reset s /\
  drag s' = drag s /\
  drag_start s' = drag_start s /\
  confirm s' = confirm s /\
  confirm_next s' = confirm_next s.

(** The press anchor, the dragging flag and the ghost counter. *)
Definition press_state `{Signature} (s : GTool) : option coor * bool * nat :=
  (click_coor s, dragged s, confirm_cycles s).

(** No method of the tool assigns [click_coor] or [dragged], or runs a
    confirm cycle of its own.  Every method of [GToolHide] and of
    [GToolMove] is of this kind. *)
Definition keeps_press_state `{Tool} : Prop :=
  forall f args s s', call f args s = Ok s' -> press_state s' = press_state s.

(** The distance from which a movement counts as a drag: the float that
    [distance_to_drag_pix / scale] gives. *)
Definition drag_threshold `{Signature} (s : GTool) : Q :=
  py_quot (distance_to_drag_pix s) (self_scale s).


(** The three [ini] attributes exist. *)
Definition baselines_set `{Signature} (s : GTool) : Prop :=
  is_Some (HighlightList.ini (hl_proposals s)) /\
  is_Some (HighlightList.ini (hl_selected s)) /\
  is_Some (HighlightList.ini (hl_helpers s)).

(** No method of the tool deletes an [ini] attribute. *)
Definition keeps_baselines `{Tool} : Prop :=
  forall f args s s', call f args s = Ok s' -> baselines_set s -> baselines_set s'.

(** The same highlight list with another [saved] list. *)
Definition with_saved `{Signature} (v : list (hl_item * bool)) (h : HighlightList.t)
  : HighlightList.t :=
  {| HighlightList.l := HighlightList.l h;
     HighlightList.saved := v;
     HighlightList.ini := HighlightList.ini h |}.

(** The state that [_pre_update] leaves, spelled out. *)
Definition pre_updated `{Signature} (vp vs vh : list (hl_item * bool)) (r : Q)
  (s : GTool) : GTool :=
  set_confirm_next None
    (set_confirm None
       (set_drag_start None
          (set_drag None
             (set_base (set_find_radius r (base s))
                (set_hl_helpers (HighlightList.set_l vh (hl_helpers s))
                   (set_hl_selected (HighlightList.set_l vs (hl_selected s))
                      (set_hl_proposals (HighlightList.set_l vp (hl_proposals s))
                         s))))))).

(** The two flags that the hide tool keeps in the graphical environment. *)
Definition show_all `{GToolHide.World} (s : GTool) : bool :=
  GToolHide.show_all_mode (self_vis s).

Definition hidden `{GToolHide.World} (s : GTool) (g : gi) : bool :=
  GToolHide.gi_to_hidden (self_vis s) g.

Definition vis_flags_kept `{GToolHide.World} (f : Vis -> Vis) : Prop :=
  forall v : Vis,
    GToolHide.show_all_mode (f v) = GToolHide.show_all_mode v /\
    forall g, GToolHide.gi_to_hidden (f v) g = GToolHide.gi_to_hidden v g.

(** The collaborators called by the hide tool (the three highlight sinks,
    [vis.refresh] and [viewport.set_cursor_by_tool]) do not change the
    show-all flag, the hidden flags or the viewport scale. *)
Definition hide_collab_ok `{GToolHide.Collab} : Prop :=
  (forall l, vis_flags_kept (update_hl_selected l)) /\
  (forall l, vis_flags_kept (update_hl_proposals l)) /\
  (forall l, vis_flags_kept (update_hl_helpers l)) /\
  vis_flags_kept GToolHide.vis_refresh /\
  (forall vp : Viewport,
     scale (GToolHide.set_cursor_by_tool vp) = scale vp /\
     GToolHide.show_all_mode (vis (GToolHide.set_cursor_by_tool vp))
     = GToolHide.show_all_mode (vis vp) /\
     forall g,
       GToolHide.gi_to_hidden (vis (GToolHide.set_cursor_by_tool vp)) g
       = GToolHide.gi_to_hidden (vis vp) g).

(** What an update cycle of the hide tool leaves as it is. *)
Definition hide_frame `{GToolHide.World} (s s' : GTool) : Prop :=
  show_all s' = show_all s /\
  (forall g, hidden s' g = hidden s g) /\
  self_scale s' = self_scale s /\
  update s' = update s /\
  on_reset s' = on_reset s /\
  click_coor s' = click_coor s /\
  baselines_set s'.

(** Every entry is permanent. *)
Definition all_permanent `{Signature} (v : list (hl_item * bool)) : Prop :=
  Forall (fun e => snd e = true) v.

(** The baselines that exist hold permanent entries only. *)
Definition baselines_permanent `{Signature} (s : GTool) : Prop :=
  forall v,
    HighlightList.ini (hl_proposals s) = Some v \/
    HighlightList.ini (hl_selected s) = Some v \/
    HighlightList.ini (hl_helpers s) = Some v ->
    all_permanent v.

(** No method of the tool assigns an [ini] attribute. *)
Definition leaves_baselines `{Tool} : Prop :=
  forall f args s s', call f args s = Ok s' -> baselines s' = baselines s.

(** A recorded anchor that is not yet a drag comes with a drag handler. *)
Definition armed `{Signature} (s : GTool) : Prop :=
  forall a, click_coor s = Some a -> dragged s = false -> drag s <> None.

(** The drag-start actions that the methods of the tool store do not
    assign [drag]. *)
Definition drag_start_keeps_drag `{Tool} : Prop :=
  forall f args s s',
    call f args s = Ok s' ->
    drag_start s = None ->
    forall g, drag_start s' = Some g ->
    forall x x', run_tuple g [] x = Ok x' -> drag x' = drag x.

(** * Properties *)

(** ** General facts *)

Lemma bind_Ok {A B : Type} (m : result A) (k : A -> result B) (b : B) :
  bind m k = Ok b -> exists a, m = Ok a /\ k a = Ok b.
Proof.
  destruct m as [a|e]; simpl; intros Hk; [eauto | discriminate].
Qed.

Lemma py_truediv_Ok (a b : Q) :
  ~ (b == 0)%Q -> py_truediv a b = Ok (py_quot a b).
Proof.
  intros Hb. unfold py_truediv.
  destruct (Qeq_bool b 0) eqn:E; [| reflexivity].
  apply Qeq_bool_iff in E. contradiction.
Qed.

Lemma py_truediv_zero (a b : Q) :
  (b == 0)%Q -> py_truediv a b = Raise ZeroDivisionError.
Proof.
  intros Hb. unfold py_truediv.
  apply Qeq_bool_iff in Hb. rewrite Hb. reflexivity.
Qed.

Lemma py_ge_true (a b : Q) : py_ge a b = true <-> (b <= a)%Q.
Proof. unfold py_ge. apply Qle_bool_iff. Qed.

Lemma py_ge_false (a b : Q) : py_ge a b = false <-> (a < b)%Q.
Proof.
  unfold py_ge. split.
  - intros E. apply Qnot_le_lt. intros Hle.
    apply Qle_bool_iff in Hle. congruence.
  - intros Hlt. destruct (Qle_bool b a) eqn:E; [| reflexivity].
    apply Qle_bool_iff in E. exfalso. exact (Qlt_not_le _ _ Hlt E).
Qed.

(** ** Picking: [py_min] and [coor_to_obj] *)

Lemma first_min_snoc {A : Type} (key : A -> Q) (best y : A) (seen : list A) :
  first_min key best seen ->
  first_min key (min_step key best y) (seen ++ [y]).
Proof.
  intros (pre & post & -> & Hpre & Hpost). unfold min_step.
  destruct (Qlt_le_dec (key y) (key best)) as [Hlt | Hle].
  - exists (pre ++ best :: post), []. split; [reflexivity |]. split.
    + intros z Hz. apply in_app_or in Hz as [Hz | [<- | Hz]].
      * eapply Qlt_trans; [exact Hlt | auto].
      * exact Hlt.
      * eapply Qlt_le_trans; [exact Hlt | auto].
    + intros z [].
  - exists pre, (post ++ [y]). split; [| split].
    + rewrite <- app_assoc. reflexivity.
    + exact Hpre.
    + intros z Hz. apply in_app_or in Hz as [Hz | [<- | []]]; auto.
Qed.

Lemma fold_first_min {A : Type} (key : A -> Q) (rest : list A) :
  forall (seen : list A) (best : A),
    first_min key best seen ->
    first_min key (fold_left (min_step key) rest best) (seen ++ rest).
Proof.
  induction rest as [| y rest IH]; intros seen best Hb; simpl.
  - rewrite app_nil_r. exact Hb.
  - replace (seen ++ y :: rest) with ((seen ++ [y]) ++ rest)
      by (rewrite <- app_assoc; reflexivity).
    apply IH. apply first_min_snoc. exact Hb.
Qed.

Lemma py_min_first {A : Type} (key : A -> Q) (x : A) (rest : list A) (default : A) :
  first_min key (py_min key (x :: rest) default) (x :: rest).
Proof.
  unfold py_min. apply (fold_first_min key rest [x] x).
  exists [], []. split; [reflexivity |]. split; intros z [].
Qed.

Lemma first_min_In {A : Type} (key : A -> Q) (m : A) (xs : list A) :
  first_min key m xs -> In m xs.
Proof.
  intros (pre & post & -> & _). apply in_or_app. right. left. reflexivity.
Qed.

Lemma first_min_le {A : Type} (key : A -> Q) (m : A) (xs : list A) :
  first_min key m xs -> forall y, In y xs -> (key m <= key y)%Q.
Proof.
  intros (pre & post & -> & Hpre & Hpost) y Hy.
  apply in_app_or in Hy as [Hy | [<- | Hy]].
  - apply Qlt_le_weak. auto.
  - apply Qle_refl.
  - auto.
Qed.

(** The minimum over the tagged candidates is the tagged minimum. *)
Lemma fold_min_map {A B : Type} (g : A -> B) (keyA : A -> Q) (keyB : B -> Q)
  (rest : list A) :
  (forall a, keyB (g a) = keyA a) ->
  forall x,
    fold_left (fun best y => if Qlt_le_dec (keyB y) (keyB best) then y else best)
      (map g rest) (g x)
    = g (fold_left (min_step keyA) rest x).
Proof.
  intros Hk. induction rest as [| y rest IH]; intros x; simpl; [reflexivity |].
  rewrite !Hk. unfold min_step at 2.
  destruct (Qlt_le_dec (keyA y) (keyA x)); apply IH.
Qed.

Lemma apply_filter_In `{Signature} (filter_f : filter_t) (l : list (gi * num)) p :
  In p (apply_filter filter_f l) <-> In p l /\ passes filter_f p.
Proof.
  destruct filter_f as [f |]; simpl.
  - apply filter_In.
  - tauto.
Qed.

Lemma _update_find_radius_Ok `{Signature} (self : ObjSelector) :
  ~ (scale (viewport self) == 0)%Q ->
  _update_find_radius self
  = Ok (set_find_radius (py_quot (find_radius_pix self) (scale (viewport self))) self).
Proof.
  intros Hs. unfold _update_find_radius. rewrite py_truediv_Ok by exact Hs.
  reflexivity.
Qed.

(** What [coor_to_obj] returns, in terms of the first nearest candidate. *)
Lemma coor_to_obj_first_min `{Scene} (c : coor) (l : list (gi * num))
  (filter_f : filter_t) (self : ObjSelector) :
  ~ (scale (viewport self) == 0)%Q ->
  let radius := (py_quot (find_radius_pix self) (scale (viewport self))) in
  let self' := set_find_radius radius self in
  match apply_filter filter_f l with
  | [] => coor_to_obj c l filter_f self = Ok (self', None)
  | x :: rest =>
      exists m, first_min (fun p => dist_from (snd p) c) m (x :: rest) /\
        coor_to_obj c l filter_f self
        = Ok (self', if py_ge (dist_from (snd m) c) radius then None else Some m)
  end.
Proof.
  intros Hs radius self'. unfold coor_to_obj.
  rewrite _update_find_radius_Ok by exact Hs. simpl.
  fold radius. fold self'.
  destruct (apply_filter filter_f l) as [| x rest] eqn:E.
  - simpl. destruct (py_ge 0 radius); reflexivity.
  - exists (py_min (fun p => dist_from (snd p) c) (x :: rest) x).
    split; [apply py_min_first |].
    unfold py_min. simpl map. cbv beta iota.
    rewrite (fold_min_map (fun p => (dist_from (snd p) c, Some p))
               (fun p => dist_from (snd p) c) fst rest) by reflexivity.
    fold (@min_step (gi * num) (fun p => dist_from (snd p) c)).
    destruct (py_ge _ radius); reflexivity.
Qed.

(** C1. [coor_to_obj] recomputes the tolerance [find_radius] as 20 divided
    by the viewport scale (the float that this division gives, [py_quot]),
    and returns the candidate that passes the filter and is nearest to the
    cursor when its distance is below that tolerance; it returns none
    exactly when no candidate passes the filter or the least distance is
    at least the tolerance. *)
Theorem coor_to_obj_nearest `{Scene} (c : coor) (l : list (gi * num))
  (filter_f : filter_t) (self : ObjSelector) :
  find_radius_pix self = 20%Q ->
  ~ (scale (viewport self) == 0)%Q ->
  let radius := (py_quot 20 (scale (viewport self))) in
  exists r,
    coor_to_obj c l filter_f self = Ok (set_find_radius radius self, r) /\
    match r with
    | Some p =>
        In p l /\ passes filter_f p /\
        (forall q, In q l -> passes filter_f q ->
                   (dist_from (snd p) c <= dist_from (snd q) c)%Q) /\
        (dist_from (snd p) c < radius)%Q
    | None =>
        (forall q, In q l -> ~ passes filter_f q) \/
        (exists p, In p l /\ passes filter_f p /\
           (forall q, In q l -> passes filter_f q ->
                      (dist_from (snd p) c <= dist_from (snd q) c)%Q) /\
           (radius <= dist_from (snd p) c)%Q)
    end.
Proof.
  intros Hpix Hs radius.
  pose proof (coor_to_obj_first_min c l filter_f self Hs) as Hc.
  simpl in Hc. rewrite Hpix in Hc. fold radius in Hc.
  destruct (apply_filter filter_f l) as [| x rest] eqn:E.
  - exists None. split; [exact Hc |]. left.
    intros q Hq Hp.
    assert (Hin : In q (apply_filter filter_f l))
      by (apply apply_filter_In; auto).
    rewrite E in Hin. destruct Hin.
  - destruct Hc as (m & Hm & Hc).
    assert (Hin : In m l /\ passes filter_f m).
    { apply apply_filter_In. rewrite E. eapply first_min_In; eauto. }
    assert (Hle : forall q, In q l -> passes filter_f q ->
                    (dist_from (snd m) c <= dist_from (snd q) c)%Q).
    { intros q Hq Hp.
      apply (first_min_le (fun p => dist_from (snd p) c) m (x :: rest) Hm).
      rewrite <- E. apply apply_filter_In. auto. }
    destruct (py_ge (dist_from (snd m) c) radius) eqn:G.
    + exists None. split; [exact Hc |]. right. exists m.
      apply py_ge_true in G. tauto.
    + exists (Some m). split; [exact Hc |].
      apply py_ge_false in G. tauto.
Qed.

(** ** The sequential-attempt combinator *)

Lemma coor_to_attempts_hit `{Signature} (c : coor) (filter_f : filter_t)
  (pre : list selector) (s s1 : ObjSelector) :
  tried c filter_f pre s s1 ->
  forall sel post s' p,
    sel c filter_f s1 = Ok (s', Some p) ->
    coor_to_attempts c (pre ++ sel :: post) filter_f s = Ok (s', Some p).
Proof.
  induction 1 as [s | sel0 rest s s1 s2 Hsel _ IH]; intros sel post s' p Hhit; simpl.
  - rewrite Hhit. reflexivity.
  - rewrite Hsel. simpl. eapply IH. exact Hhit.
Qed.

Lemma coor_to_attempts_miss `{Signature} (c : coor) (filter_f : filter_t)
  (sels : list selector) (s s' : ObjSelector) :
  tried c filter_f sels s s' ->
  coor_to_attempts c sels filter_f s = Ok (s', None).
Proof.
  induction 1 as [s | sel0 rest s s1 s2 Hsel _ IH]; simpl.
  - reflexivity.
  - rewrite Hsel. simpl. exact IH.
Qed.

(** C6. [coor_to_attempts] returns the result of the first picker, in the
    order of the list, whose result is not none (the pickers before it
    having returned none), and returns none when every picker of the list
    returned none. *)
Theorem coor_to_attempts_first `{Signature} (c : coor) (filter_f : filter_t)
  (sels : list selector) (s s' : ObjSelector) (r : pick) :
  coor_to_attempts c sels filter_f s = Ok (s', r) <->
  match r with
  | Some p =>
      exists pre sel post s1,
        sels = pre ++ sel :: post /\
        tried c filter_f pre s s1 /\
        sel c filter_f s1 = Ok (s', Some p)
  | None => tried c filter_f sels s s'
  end.
Proof.
  split.
  - revert s. induction sels as [| sel rest IH]; intros s; simpl.
    + intros [= <- <-]. constructor.
    + destruct (sel c filter_f s) as [[s1 [p |]] | e] eqn:Hsel; simpl.
      * intros [= <- <-]. exists [], sel, rest, s.
        split; [reflexivity |]. split; [constructor | exact Hsel].
      * intros Hrest. specialize (IH s1 Hrest). destruct r as [p |].
        -- destruct IH as (pre & sel' & post & s2 & -> & Htr & Hhit).
           exists (sel :: pre), sel', post, s2.
           split; [reflexivity |]. split; [| exact Hhit].
           econstructor; eassumption.
        -- econstructor; eassumption.
      * discriminate.
  - destruct r as [p |].
    + intros (pre & sel & post & s1 & -> & Htr & Hhit).
      eapply coor_to_attempts_hit; eassumption.
    + apply coor_to_attempts_miss.
Qed.

(** The priority of [coor_to_pcl]: a point within tolerance is returned
    before any line or circle is looked at. *)
Lemma coor_to_pcl_point_first `{Scene} (c : coor) (filter_f : filter_t)
  (s s' : ObjSelector) (p : gi * num) :
  coor_to_point c filter_f s = Ok (s', Some p) ->
  coor_to_pcl c filter_f s = Ok (s', Some p).
Proof.
  intros Hp. unfold coor_to_pcl. simpl. rewrite Hp. reflexivity.
Qed.

(** ** HighlightList: commit, restore and the absence of sharing *)

Lemma save_load `{Signature} (h : HighlightList.t) :
  HighlightList.load (HighlightList.save h)
  = Ok {| HighlightList.l := List.filter snd (HighlightList.l h);
          HighlightList.saved := HighlightList.saved h;
          HighlightList.ini := Some (List.filter snd (HighlightList.l h)) |}.
Proof. reflexivity. Qed.

Lemma filter_sticky_idem `{Signature} (v : list (hl_item * bool)) :
  List.filter snd (List.filter snd v) = List.filter snd v.
Proof.
  induction v as [| [x []] v IH]; simpl; [reflexivity | | exact IH].
  rewrite IH. reflexivity.
Qed.

Lemma mutate_baseline_apart `{Scene} (m : HLRef.mutation) (b : nat)
  (v : list (hl_item * bool)) (st st' : HLRef.store) (self self' : HLRef.t) :
  baseline_apart b v st self ->
  HLRef.mutate m st self = Ok (st', self') ->
  baseline_apart b v st' self'.
Proof.
  intros (Hini & Hne & Hlt & Hv) Hm.
  assert (Hb : Nat.eqb b (HLRef.l self) = false) by (apply Nat.eqb_neq; exact Hne).
  destruct m as [args perm | | x | cond]; simpl in Hm.
  - injection Hm as <- <-. unfold baseline_apart. simpl. rewrite Hb. auto.
  - unfold HLRef.pop in Hm.
    destruct (rev (HLRef.cell st (HLRef.l self))) as [| y r]; simpl in Hm;
      [discriminate |].
    injection Hm as <- <-. unfold baseline_apart. simpl. rewrite Hb. auto.
  - unfold HLRef.remove in Hm.
    destruct (HighlightList.list_remove (x, true) (HLRef.cell st (HLRef.l self)));
      simpl in Hm; [| discriminate].
    injection Hm as <- <-. unfold baseline_apart. simpl. rewrite Hb. auto.
  - injection Hm as <- <-. unfold baseline_apart. simpl.
    assert (Hb' : Nat.eqb b (HLRef.next st) = false) by (apply Nat.eqb_neq; lia).
    rewrite Hb'. repeat split; auto; lia.
Qed.

Lemma mutate_all_baseline_apart `{Scene} (ms : list HLRef.mutation) (b : nat)
  (v : list (hl_item * bool)) :
  forall (st st' : HLRef.store) (self self' : HLRef.t),
    baseline_apart b v st self ->
    HLRef.mutate_all ms st self = Ok (st', self') ->
    baseline_apart b v st' self'.
Proof.
  induction ms as [| m ms IH]; intros st st' self self' Hb Hm; simpl in Hm.
  - injection Hm as <- <-. exact Hb.
  - destruct (HLRef.mutate m st self) as [[st1 self1] | e] eqn:E; simpl in Hm;
      [| discriminate].
    eapply IH; [| exact Hm]. eapply mutate_baseline_apart; eassumption.
Qed.

(** C5. [save] followed by [load] leaves the working list equal to the
    permanent (sticky) entries of the working list at the time of [save];
    the baseline is then a list object different from the working list,
    and no later sequence of [add], [pop], [remove], [remove_if] on the
    object changes the baseline's contents. *)
Theorem save_load_sticky_isolated `{Scene} (st : HLRef.store) (self : HLRef.t) :
  let sticky := List.filter snd (HLRef.cell st (HLRef.l self)) in
  exists st2 self2 b,
    HLRef.load (fst (HLRef.save st self)) (snd (HLRef.save st self)) = Ok (st2, self2) /\
    HLRef.cell st2 (HLRef.l self2) = sticky /\
    HLRef.ini self2 = Some b /\
    b <> HLRef.l self2 /\
    HLRef.cell st2 b = sticky /\
    forall ms : list HLRef.mutation,
      match HLRef.mutate_all ms st2 self2 with
      | Ok (st3, self3) => HLRef.ini self3 = Some b /\ HLRef.cell st3 b = sticky
      | Raise _ => True
      end.
Proof.
  intros sticky.
  eexists _, _, (HLRef.next st). split; [reflexivity |]. simpl.
  rewrite !Nat.eqb_refl.
  assert (E : Nat.eqb (HLRef.next st) (S (HLRef.next st)) = false)
    by (apply Nat.eqb_neq; lia).
  rewrite E. fold sticky.
  split; [reflexivity |]. split; [reflexivity |]. split; [lia |].
  split; [reflexivity |].
  intros ms.
  match goal with
  | |- match HLRef.mutate_all ms ?s2 ?o2 with _ => _ end =>
      destruct (HLRef.mutate_all ms s2 o2) as [[st3 self3] | e] eqn:Hm; [| exact I];
      assert (Hb : baseline_apart (HLRef.next st) sticky s2 o2)
  end.
  { unfold baseline_apart. simpl. rewrite Nat.eqb_refl, E.
    repeat split; auto; lia. }
  destruct (mutate_all_baseline_apart ms _ _ _ _ _ _ Hb Hm) as (Hi & _ & _ & Hc).
  auto.
Qed.

(** *** The value-level model is what the references stand for *)

Ltac hlref_cases :=
  repeat match goal with
    | |- context [Nat.eqb ?a ?b] =>
        let E := fresh "E" in
        destruct (Nat.eqb a b) eqn:E;
        [apply Nat.eqb_eq in E | apply Nat.eqb_neq in E]
    end.

Lemma contents_add `{Signature} args permanent st self :
  HLRef.separated self ->
  HLRef.contents (fst (HLRef.add args permanent st self))
                 (snd (HLRef.add args permanent st self))
  = HighlightList.add args permanent (HLRef.contents st self).
Proof.
  intros (Hls & Hini). unfold HLRef.contents, HighlightList.add, HighlightList.set_l.
  simpl. rewrite Nat.eqb_refl. f_equal.
  - hlref_cases; congruence.
  - destruct (HLRef.ini self) as [p |]; simpl; [| reflexivity].
    destruct (Hini p eq_refl) as (Hp & _). hlref_cases; congruence.
Qed.

Lemma contents_save `{Signature} st self :
  allocated st self ->
  HLRef.contents (fst (HLRef.save st self)) (snd (HLRef.save st self))
  = HighlightList.save (HLRef.contents st self).
Proof.
  intros (Hl & Hs & Hi).
  unfold HLRef.contents, HighlightList.save, HighlightList.set_ini. simpl.
  rewrite Nat.eqb_refl. f_equal; hlref_cases; try reflexivity; lia.
Qed.

Lemma contents_reset_save `{Signature} st self :
  allocated st self ->
  HLRef.contents (fst (HLRef.reset_save st self)) (snd (HLRef.reset_save st self))
  = HighlightList.reset_save (HLRef.contents st self).
Proof.
  intros (Hl & Hs & Hi).
  unfold HLRef.contents, HighlightList.reset_save, HighlightList.set_ini. simpl.
  rewrite Nat.eqb_refl. f_equal; hlref_cases; try reflexivity; lia.
Qed.

Lemma contents_load `{Signature} st self :
  allocated st self ->
  match HLRef.load st self, HighlightList.load (HLRef.contents st self) with
  | Ok (st', self'), Ok h => HLRef.contents st' self' = h
  | Raise e, Raise e' => e = e'
  | _, _ => False
  end.
Proof.
  intros (Hl & Hs & Hi).
  unfold HLRef.load, HighlightList.load, HLRef.contents.
  destruct (HLRef.ini self) as [p |] eqn:Ep; simpl; [| reflexivity].
  rewrite Ep. simpl. rewrite Nat.eqb_refl.
  specialize (Hi p eq_refl).
  unfold HighlightList.set_l. simpl. f_equal; hlref_cases; try reflexivity; lia.
Qed.

Lemma contents_remove_if `{Signature} cond st self :
  allocated st self ->
  HLRef.contents (fst (HLRef.remove_if cond st self)) (snd (HLRef.remove_if cond st self))
  = HighlightList.remove_if cond (HLRef.contents st self).
Proof.
  intros (Hl & Hs & Hi).
  unfold HLRef.contents, HighlightList.remove_if, HighlightList.set_l. simpl.
  rewrite Nat.eqb_refl. f_equal.
  - hlref_cases; try reflexivity; lia.
  - destruct (HLRef.ini self) as [p |]; simpl; [| reflexivity].
    specialize (Hi p eq_refl). hlref_cases; try reflexivity; lia.
Qed.

Lemma contents_pop `{Signature} st self :
  HLRef.separated self ->
  match HLRef.pop st self, HighlightList.pop (HLRef.contents st self) with
  | Ok (st', self', x), Ok (h, y) => HLRef.contents st' self' = h /\ x = y
  | Raise e, Raise e' => e = e'
  | _, _ => False
  end.
Proof.
  intros (Hls & Hini). unfold HLRef.pop, HighlightList.pop. simpl.
  destruct (rev (HLRef.cell st (HLRef.l self))) as [| x r]; [reflexivity |].
  split; [| reflexivity].
  unfold HLRef.contents, HighlightList.set_l. simpl. rewrite Nat.eqb_refl. f_equal.
  - hlref_cases; congruence.
  - destruct (HLRef.ini self) as [p |]; simpl; [| reflexivity].
    destruct (Hini p eq_refl) as (Hp & _). hlref_cases; congruence.
Qed.

(** A fresh object, and every object obtained from it, keeps its three
    lists apart. *)
Lemma init_separated `{Signature} (st : HLRef.store) :
  HLRef.separated (snd (HLRef.init st)) /\
  allocated (fst (HLRef.init st)) (snd (HLRef.init st)).
Proof.
  unfold HLRef.separated, allocated. simpl.
  repeat split; intros; simplify_eq; lia.
Qed.

Lemma save_separated `{Signature} st self :
  HLRef.separated self -> allocated st self ->
  HLRef.separated (snd (HLRef.save st self)) /\
  allocated (fst (HLRef.save st self)) (snd (HLRef.save st self)).
Proof.
  intros (Hls & Hini) (Hl & Hs & Hi). unfold HLRef.separated, allocated. simpl.
  repeat split; intros; simplify_eq; lia.
Qed.

Lemma load_separated `{Signature} st self st' self' :
  HLRef.separated self -> allocated st self ->
  HLRef.load st self = Ok (st', self') ->
  HLRef.separated self' /\ allocated st' self'.
Proof.
  intros (Hls & Hini) (Hl & Hs & Hi). unfold HLRef.load.
  destruct (HLRef.ini self) as [p |] eqn:Ep; [| discriminate].
  simpl. intros [= <- <-]. unfold HLRef.separated, allocated. simpl.
  specialize (Hi p eq_refl). destruct (Hini p eq_refl) as (_ & Hps).
  rewrite Ep.
  repeat split; intros; simplify_eq; auto; lia.
Qed.

(** ** The engine: the confirm cycle *)

(** C2. The confirm cycle first calls the confirm action when one is set.
    In the state [s1] that this leaves: when [confirm_next] is set, the
    cycle ends with [update] equal to it and with the baseline of each of
    the three highlight lists equal to the permanent entries of its
    working list; otherwise the three baselines are emptied, [update] is
    the tool's [update_basic], and the cycle ends by calling the reset
    hook on that state. *)
Theorem run_confirm_cycle `{Tool} (self : GTool) :
  let counted := set_confirm_cycles (S (confirm_cycles self)) self in
  match (match confirm self with
         | Some f => run_tuple f [] counted
         | None => Ok counted
         end) with
  | Raise e => _run_confirm self = Raise e
  | Ok s1 =>
      match confirm_next s1 with
      | Some next =>
          exists s2,
            _run_confirm self = Ok s2 /\
            update s2 = next /\
            baselines s2 = sticky_workings s1 /\
            confirm_frame s1 s2
      | None =>
          exists s2,
            _run_confirm self = run_tuple (on_reset s1) [] s2 /\
            update s2 = HFun m_update_basic /\
            baselines s2 = (Some [], Some [], Some []) /\
            confirm_frame s1 s2
      end
  end.
Proof.
  intros counted. unfold _run_confirm. fold counted.
  change (confirm counted) with (confirm self).
  destruct (match confirm self with
            | Some f => run_tuple f [] counted
            | None => Ok counted
            end) as [s1 | e]; simpl; [| reflexivity].
  destruct (confirm_next s1) as [next |] eqn:En.
  - eexists. split; [reflexivity |]. unfold confirm_frame. simpl. auto 12.
  - eexists. split; [reflexivity |]. unfold confirm_frame. simpl. auto 12.
Qed.

(** ** The engine: what the handlers may leave alone *)

Lemma run_tuple_press_state `{Tool} (h : handler) args s s' :
  keeps_press_state -> run_tuple h args s = Ok s' -> press_state s' = press_state s.
Proof.
  intros K. destruct h; simpl; apply K.
Qed.

Lemma _hl_load_press_state `{Signature} (s s' : GTool) :
  _hl_load s = Ok s' -> press_state s' = press_state s.
Proof.
  unfold _hl_load. intros Hl.
  apply bind_Ok in Hl as (p & _ & Hl). simpl in Hl.
  apply bind_Ok in Hl as (q & _ & Hl). simpl in Hl.
  apply bind_Ok in Hl as (r & _ & Hl). injection Hl as <-. reflexivity.
Qed.

Lemma _pre_update_press_state `{Signature} (s s' : GTool) :
  _pre_update s = Ok s' -> press_state s' = press_state s.
Proof.
  unfold _pre_update. intros Hp.
  apply bind_Ok in Hp as (s1 & E1 & Hp).
  apply bind_Ok in Hp as (b & _ & Hp). injection Hp as <-.
  apply _hl_load_press_state in E1. exact E1.
Qed.

Lemma _run_update_press_state `{Tool} (c : coor) (s s' : GTool) :
  keeps_press_state -> _run_update c s = Ok s' -> press_state s' = press_state s.
Proof.
  intros K. unfold _run_update. intros Hu.
  apply bind_Ok in Hu as (s1 & E1 & Hu).
  apply bind_Ok in Hu as (s2 & E2 & Hu). injection Hu as <-.
  apply _pre_update_press_state in E1.
  apply run_tuple_press_state in E2; [| exact K].
  change (press_state (_hl_update s2)) with (press_state s2). congruence.
Qed.

Lemma _run_confirm_press_state `{Tool} (s s' : GTool) :
  keeps_press_state -> _run_confirm s = Ok s' ->
  click_coor s' = click_coor s /\ dragged s' = dragged s /\
  confirm_cycles s' = S (confirm_cycles s).
Proof.
  intros K. unfold _run_confirm. intros Hc.
  apply bind_Ok in Hc as (s1 & E1 & Hc).
  change (confirm (set_confirm_cycles (S (confirm_cycles s)) s))
    with (confirm s) in E1.
  assert (P1 : press_state s1 = (click_coor s, dragged s, S (confirm_cycles s))).
  { destruct (confirm s) as [f |].
    - apply run_tuple_press_state in E1; [| exact K]. exact E1.
    - injection E1 as <-. reflexivity. }
  assert (P2 : press_state s' = press_state s1).
  { destruct (confirm_next s1) as [next |].
    - injection Hc as <-. reflexivity.
    - apply run_tuple_press_state in Hc; [| exact K]. exact Hc. }
  rewrite P1 in P2. injection P2 as -> -> ->. auto.
Qed.

Lemma reset_press_state `{Tool} (s s' : GTool) :
  keeps_press_state -> reset s = Ok s' ->
  click_coor s' = None /\ dragged s' = false /\ confirm_cycles s' = confirm_cycles s.
Proof.
  intros K. unfold reset. intros Hr.
  apply bind_Ok in Hr as (s1 & E1 & Hr).
  apply _pre_update_press_state in E1.
  apply run_tuple_press_state in Hr; [| exact K].
  change (press_state s' = press_state s1) in Hr.
  rewrite E1 in Hr. injection Hr as -> -> ->. auto.
Qed.

(** [reset] is the cancel operation of the claim: it leaves the tool
    unpressed, with empty baselines and the basic update handler. *)
Lemma reset_unpressed `{Tool} (s s' : GTool) :
  keeps_press_state -> reset s = Ok s' ->
  click_coor s' = None /\ dragged s' = false.
Proof.
  intros K Hr. destruct (reset_press_state s s' K Hr) as (? & ? & _). auto.
Qed.

Lemma _hl_load_baselines `{Signature} (s s' : GTool) :
  _hl_load s = Ok s' -> baselines s' = baselines s.
Proof.
  unfold _hl_load, HighlightList.load, baselines. intros Hl.
  destruct (HighlightList.ini (hl_proposals s)) as [vp |] eqn:Ep; [| discriminate].
  simpl in Hl.
  destruct (HighlightList.ini (hl_selected s)) as [vs |] eqn:Es; [| discriminate].
  simpl in Hl.
  destruct (HighlightList.ini (hl_helpers s)) as [vh |] eqn:Eh; [| discriminate].
  simpl in Hl. injection Hl as <-. simpl. congruence.
Qed.

Lemma _pre_update_baselines `{Signature} (s s' : GTool) :
  _pre_update s = Ok s' -> baselines s' = baselines s.
Proof.
  unfold _pre_update. intros Hp.
  apply bind_Ok in Hp as (sl & El & Hp).
  apply bind_Ok in Hp as (b & _ & Hp). injection Hp as <-.
  apply _hl_load_baselines in El. exact El.
Qed.

(** What [reset] does before it calls the reset hook. *)
Lemma reset_hook_state `{Tool} (s s1 : GTool) :
  reset s = Ok s1 ->
  exists s0,
    run_tuple (on_reset s0) [] s0 = Ok s1 /\
    click_coor s0 = None /\
    dragged s0 = false /\
    baselines s0 = (Some [], Some [], Some []) /\
    update s0 = HFun m_update_basic.
Proof.
  unfold reset. intros Hr.
  apply bind_Ok in Hr as (sp & Ep & Hr).
  eexists. split; [exact Hr |].
  pose proof (_pre_update_press_state _ _ Ep) as Hps.
  injection Hps as Hc Hd _.
  pose proof (_pre_update_baselines _ _ Ep) as Hb.
  repeat split; assumption.
Qed.

(** ** The engine: a press while pressed *)

(** C4. When a press anchor is recorded, [button_press] does what [reset]
    (the cancel operation) followed by [button_press] on the state that
    [reset] leaves does: the same final state, or the same exception.
    That [reset] is the full reset: it clears the press anchor and the
    dragging flag, empties the three baselines, sets the update handler
    back to [update_basic] and calls the reset hook; and the state it
    leaves is unpressed, so the press that follows starts afresh, without
    a further reset. *)
Theorem press_while_pressed `{Tool} (c a : coor) (s : GTool) :
  keeps_press_state ->
  click_coor s = Some a ->
  button_press c s = (let! s' := reset s in button_press c s') /\
  (forall s',
     reset s = Ok s' ->
     (exists s0,
        run_tuple (on_reset s0) [] s0 = Ok s' /\
        click_coor s0 = None /\
        dragged s0 = false /\
        baselines s0 = (Some [], Some [], Some []) /\
        update s0 = HFun m_update_basic) /\
     click_coor s' = None /\
     dragged s' = false /\
     button_press c s'
     = (let! su := _run_update c s' in
        match drag su with
        | None => let! sc := _run_confirm su in _run_update c sc
        | Some _ =>
            let sp := set_dragged false (set_click_coor (Some c) su) in
            let! sd :=
              match drag_start sp with
              | Some f => run_tuple f [] sp
              | None => Ok sp
              end in
            Ok (_hl_save sd)
        end)).
Proof.
  intros K Ha. split.
  - unfold button_press at 1. rewrite Ha.
    destruct (reset s) as [s' | e] eqn:Er; simpl; [| reflexivity].
    destruct (reset_press_state s s' K Er) as (Hc & _).
    unfold button_press. rewrite Hc. reflexivity.
  - intros s' Er.
    destruct (reset_press_state s s' K Er) as (Hc & Hd & _).
    split; [exact (reset_hook_state s s' Er) |].
    split; [exact Hc |]. split; [exact Hd |].
    unfold button_press. rewrite Hc. reflexivity.
Qed.

(** ** The engine: motion with the button up *)

(** C10 (as amended). When a press anchor is recorded, a [motion] event
    with the button not pressed performs a full [reset] (press anchor and
    dragging flag cleared, the three baselines emptied, the update handler
    set back to [update_basic], the reset hook called) and then runs the
    update cycle at the event's coordinate; after any [motion] event with
    the button up no press anchor is recorded. *)
Theorem motion_button_up `{Tool} (c : coor) (s : GTool) :
  keeps_press_state ->
  (forall a, click_coor s = Some a ->
     motion c false s = (let! s1 := reset s in _run_update c s1)) /\
  (forall s1, reset s = Ok s1 ->
     exists s0,
       run_tuple (on_reset s0) [] s0 = Ok s1 /\
       click_coor s0 = None /\
       dragged s0 = false /\
       baselines s0 = (Some [], Some [], Some []) /\
       update s0 = HFun m_update_basic) /\
  (forall s', motion c false s = Ok s' -> click_coor s' = None).
Proof.
  intros K.
  assert (Hup : forall a, click_coor s = Some a ->
            motion c false s = (let! s1 := reset s in _run_update c s1)).
  { intros a Ha. unfold motion. rewrite Ha. simpl.
    destruct (reset s) as [s1 | e] eqn:Er; simpl; [| reflexivity].
    destruct (reset_press_state s s1 K Er) as (-> & _). reflexivity. }
  split; [exact Hup |]. split; [apply reset_hook_state |].
  intros s' Hm. destruct (click_coor s) as [a |] eqn:Ea.
  - rewrite (Hup a eq_refl) in Hm.
    apply bind_Ok in Hm as (s1 & Er & Hu).
    apply _run_update_press_state in Hu; [| exact K].
    destruct (reset_press_state s s1 K Er) as (Hc & _).
    injection Hu as Hu _ _. congruence.
  - unfold motion in Hm. rewrite Ea in Hm. simpl in Hm. rewrite Ea in Hm.
    apply _run_update_press_state in Hm; [| exact K].
    injection Hm as Hm _ _. congruence.
Qed.

(** ** The engine: click or drag *)

Lemma motion_short `{Tool} (c a : coor) (s : GTool) :
  click_coor s = Some a -> dragged s = false ->
  ~ (self_scale s == 0)%Q ->
  (linalg_norm (coor_sub c a) < drag_threshold s)%Q ->
  motion c true s = Ok s.
Proof.
  intros Ha Hd Hs Hlt. unfold motion. rewrite Ha, Hd. simpl.
  rewrite py_truediv_Ok by exact Hs. simpl.
  apply py_ge_false in Hlt. unfold drag_threshold in Hlt. rewrite Hlt.
  simpl. rewrite Ha, Hd. reflexivity.
Qed.

Lemma motion_far `{Tool} (c a : coor) (d : handler) (s : GTool) :
  click_coor s = Some a -> dragged s = false ->
  ~ (self_scale s == 0)%Q ->
  (drag_threshold s <= linalg_norm (coor_sub c a))%Q ->
  drag s = Some d ->
  motion c true s = _run_update c (set_dragged true (set_update d s)).
Proof.
  intros Ha Hd Hs Hle Hdr. unfold motion. rewrite Ha, Hd. simpl.
  rewrite py_truediv_Ok by exact Hs. simpl.
  apply py_ge_true in Hle. unfold drag_threshold in Hle. rewrite Hle.
  rewrite Hdr. simpl. rewrite Ha. reflexivity.
Qed.

Lemma motion_zero_scale `{Tool} (c a : coor) (s : GTool) :
  click_coor s = Some a -> dragged s = false ->
  (self_scale s == 0)%Q ->
  motion c true s = Raise ZeroDivisionError.
Proof.
  intros Ha Hd Hs. unfold motion. rewrite Ha, Hd. simpl.
  rewrite py_truediv_zero by exact Hs. reflexivity.
Qed.

Lemma motion_far_no_drag `{Tool} (c a : coor) (s : GTool) :
  click_coor s = Some a -> dragged s = false ->
  ~ (self_scale s == 0)%Q ->
  (drag_threshold s <= linalg_norm (coor_sub c a))%Q ->
  drag s = None ->
  motion c true s = Raise AssertionError.
Proof.
  intros Ha Hd Hs Hle Hdr. unfold motion. rewrite Ha, Hd. simpl.
  rewrite py_truediv_Ok by exact Hs. simpl.
  apply py_ge_true in Hle. unfold drag_threshold in Hle. rewrite Hle.
  rewrite Hdr. reflexivity.
Qed.

Lemma motion_unpressed `{Tool} (c : coor) (b : bool) (s : GTool) :
  click_coor s = None -> motion c b s = _run_update c s.
Proof.
  intros Ha. unfold motion. rewrite Ha. simpl. rewrite Ha. reflexivity.
Qed.

Lemma motion_released `{Tool} (c a : coor) (s : GTool) :
  keeps_press_state ->
  click_coor s = Some a ->
  motion c false s = (let! s1 := reset s in _run_update c s1).
Proof.
  intros K Ha. unfold motion. rewrite Ha. simpl.
  destruct (reset s) as [s1 | e] eqn:Er; simpl; [| reflexivity].
  destruct (reset_press_state s s1 K Er) as (-> & _). reflexivity.
Qed.





(** ** The baseline attribute exists only after a save *)

Lemma baselines_set_eq `{Signature} (s s' : GTool) :
  baselines s' = baselines s -> baselines_set s -> baselines_set s'.
Proof.
  unfold baselines, baselines_set. intros [= -> -> ->]. auto.
Qed.

Lemma _hl_load_Ok `{Signature} (s : GTool) :
  baselines_set s -> exists s', _hl_load s = Ok s'.
Proof.
  intros ([vp Ep] & [vs Es] & [vh Eh]).
  unfold _hl_load, HighlightList.load. rewrite Ep. simpl.
  rewrite Es. simpl. rewrite Eh. simpl. eauto.
Qed.

Lemma run_tuple_baselines_set `{Tool} (h : handler) args s s' :
  keeps_baselines -> run_tuple h args s = Ok s' ->
  baselines_set s -> baselines_set s'.
Proof.
  intros K. destruct h; simpl; apply K.
Qed.

Lemma _run_update_baselines_set `{Tool} (c : coor) (s s' : GTool) :
  keeps_baselines -> _run_update c s = Ok s' ->
  baselines_set s -> baselines_set s'.
Proof.
  intros K Hu Hb. unfold _run_update in Hu.
  apply bind_Ok in Hu as (s1 & E1 & Hu).
  apply bind_Ok in Hu as (s2 & E2 & Hu). injection Hu as <-.
  apply _pre_update_baselines in E1.
  apply (baselines_set_eq s2 (_hl_update s2)); [reflexivity |].
  eapply run_tuple_baselines_set; [exact K | exact E2 |].
  eapply baselines_set_eq; eassumption.
Qed.

Lemma _hl_save_baselines_set `{Signature} (s : GTool) : baselines_set (_hl_save s).
Proof. unfold baselines_set. simpl. eauto. Qed.

Lemma _hl_reset_baselines_set `{Signature} (s : GTool) : baselines_set (_hl_reset s).
Proof. unfold baselines_set. simpl. eauto. Qed.

Lemma _run_confirm_baselines_set `{Tool} (s s' : GTool) :
  keeps_baselines -> _run_confirm s = Ok s' -> baselines_set s'.
Proof.
  intros K Hc. unfold _run_confirm in Hc.
  apply bind_Ok in Hc as (s1 & E1 & Hc).
  destruct (confirm_next s1) as [next |].
  - injection Hc as <-. apply (_hl_save_baselines_set (set_update next s1)).
  - eapply run_tuple_baselines_set; [exact K | exact Hc |].
    apply (_hl_reset_baselines_set s1).
Qed.

Lemma reset_baselines_set `{Tool} (s s' : GTool) :
  keeps_baselines -> reset s = Ok s' -> baselines_set s'.
Proof.
  intros K Hr.
  destruct (reset_hook_state s s' Hr) as (s0 & Hrun & _ & _ & Hb & _).
  eapply run_tuple_baselines_set; [exact K | exact Hrun |].
  unfold baselines in Hb. injection Hb as Hp Hs Hh.
  unfold baselines_set. rewrite Hp, Hs, Hh. eauto.
Qed.

Lemma button_press_baselines_set `{Tool} (c : coor) (s s' : GTool) :
  keeps_baselines -> button_press c s = Ok s' ->
  baselines_set s -> baselines_set s'.
Proof.
  intros K Hp Hb. unfold button_press in Hp.
  apply bind_Ok in Hp as (s1 & E1 & Hp).
  assert (B1 : baselines_set s1).
  { destruct (click_coor s).
    - eapply reset_baselines_set; eassumption.
    - injection E1 as <-. exact Hb. }
  apply bind_Ok in Hp as (s2 & E2 & Hp).
  destruct (drag s2).
  - apply bind_Ok in Hp as (s3 & E3 & Hp). injection Hp as <-.
    apply _hl_save_baselines_set.
  - apply bind_Ok in Hp as (s3 & E3 & Hp).
    eapply _run_update_baselines_set; [exact K | exact Hp |].
    eapply _run_confirm_baselines_set; eassumption.
Qed.

Lemma button_release_baselines_set `{Tool} (c : coor) (s s' : GTool) :
  keeps_baselines -> button_release c s = Ok s' ->
  baselines_set s -> baselines_set s'.
Proof.
  intros K Hp Hb. unfold button_release in Hp.
  apply bind_Ok in Hp as (s1 & E1 & Hp).
  eapply _run_update_baselines_set; [exact K | exact Hp |].
  destruct (click_coor s).
  - eapply _run_confirm_baselines_set; eassumption.
  - injection E1 as <-. exact Hb.
Qed.

Lemma motion_baselines_set `{Tool} (c : coor) (b : bool) (s s' : GTool) :
  keeps_baselines -> motion c b s = Ok s' ->
  baselines_set s -> baselines_set s'.
Proof.
  intros K Hm Hb. unfold motion in Hm.
  apply bind_Ok in Hm as (s1 & E1 & Hm).
  assert (B1 : baselines_set s1).
  { destruct (click_coor s); [| injection E1 as <-; exact Hb].
    destruct b; [| eapply reset_baselines_set; eassumption].
    destruct (dragged s); [injection E1 as <-; exact Hb |].
    apply bind_Ok in E1 as (thr & _ & E1).
    destruct (py_ge _ thr); [| injection E1 as <-; exact Hb].
    destruct (drag s); [| discriminate].
    injection E1 as <-. exact Hb. }
  destruct (click_coor s1), (dragged s1);
    try (eapply _run_update_baselines_set; eassumption).
  injection Hm as <-. exact B1.
Qed.

Lemma GTool_enter_eq `{Tool} (vp : Viewport) (self : GTool) :
  GTool_enter vp self = reset (set_base (ObjSelector_enter vp (base self)) self).
Proof.
  exact (eq_refl (reset (set_base (ObjSelector_enter vp (base self)) self))).
Qed.

Lemma _pre_update_Ok `{Signature} (s : GTool) :
  baselines_set s -> ~ (self_scale s == 0)%Q ->
  exists vp vs vh,
    baselines s = (Some vp, Some vs, Some vh) /\
    _pre_update s
    = Ok (pre_updated vp vs vh
            (py_quot (find_radius_pix (base s)) (self_scale s)) s).
Proof.
  intros ([vp Ep] & [vs Es] & [vh Eh]) Hs. exists vp, vs, vh.
  split; [unfold baselines; rewrite Ep, Es, Eh; reflexivity |].
  unfold _pre_update, _hl_load, HighlightList.load. rewrite Ep. simpl.
  rewrite Es. simpl. rewrite Eh. simpl.
  unfold _update_find_radius. simpl.
  rewrite py_truediv_Ok by exact Hs. reflexivity.
Qed.

(** C9. [load] on a newly constructed highlight list raises
    AttributeError.  The baseline [ini] is created by [save] and
    [reset_save] only: the constructor leaves it absent, the other methods
    leave it as it is, and [load] raises exactly when it is absent.  The
    [saved] list is neither read nor written by any method (each method
    acts the same whatever [saved] holds, and leaves it as it is).  An
    update cycle, or [cursor_away], on a constructed tool on which [enter]
    has not run raises AttributeError.  [enter] on a constructed tool,
    through [reset] and [reset_save], creates the three baselines before
    anything is loaded: with a non-zero scale it gets as far as the reset
    hook with three empty baselines, and ends with the baselines in place;
    the external operations keep them, and with them [_hl_load]
    succeeds. *)
Theorem load_before_save_raises `{Tool} :
  keeps_baselines ->
  HighlightList.load HighlightList.init = Raise AttributeError /\
  (HighlightList.ini HighlightList.init = None /\
   forall h,
     (forall e, HighlightList.load h = Raise e <->
                HighlightList.ini h = None /\ e = AttributeError) /\
     HighlightList.ini (HighlightList.save h)
     = Some (List.filter snd (HighlightList.l h)) /\
     HighlightList.ini (HighlightList.reset_save h) = Some [] /\
     (forall args p,
        HighlightList.ini (HighlightList.add args p h) = HighlightList.ini h) /\
     (forall cond,
        HighlightList.ini (HighlightList.remove_if cond h) = HighlightList.ini h) /\
     (forall h', HighlightList.load h = Ok h' ->
                 HighlightList.ini h' = HighlightList.ini h) /\
     (forall h' e, HighlightList.pop h = Ok (h', e) ->
                   HighlightList.ini h' = HighlightList.ini h) /\
     (forall x h', HighlightList.remove x h = Ok h' ->
                   HighlightList.ini h' = HighlightList.ini h)) /\
  (forall v h,
     HighlightList.to_list (with_saved v h) = HighlightList.to_list h /\
     (forall args p,
        HighlightList.add args p (with_saved v h)
        = with_saved v (HighlightList.add args p h)) /\
     HighlightList.load (with_saved v h)
     = (let! h' := HighlightList.load h in Ok (with_saved v h')) /\
     HighlightList.save (with_saved v h) = with_saved v (HighlightList.save h) /\
     HighlightList.reset_save (with_saved v h)
     = with_saved v (HighlightList.reset_save h) /\
     HighlightList.pop (with_saved v h)
     = (let! r := HighlightList.pop h in Ok (with_saved v (fst r), snd r)) /\
     (forall x,
        HighlightList.remove x (with_saved v h)
        = (let! h' := HighlightList.remove x h in Ok (with_saved v h'))) /\
     (forall cond,
        HighlightList.remove_if cond (with_saved v h)
        = with_saved v (HighlightList.remove_if cond h))) /\
  (forall self c,
     _run_update c (GTool_init self) = Raise AttributeError /\
     cursor_away (GTool_init self) = Raise AttributeError) /\
  (forall vp self,
     ~ (scale vp == 0)%Q ->
     exists s0,
       GTool_enter vp (GTool_init self) = run_tuple (on_reset s0) [] s0 /\
       baselines s0 = (Some [], Some [], Some []) /\
       workings s0 = ([], [], [])) /\
  (forall vp self s', GTool_enter vp (GTool_init self) = Ok s' -> baselines_set s') /\
  (forall s, baselines_set s ->
     (exists s', _hl_load s = Ok s') /\
     (forall s', reset s = Ok s' -> baselines_set s') /\
     (forall c s', button_press c s = Ok s' -> baselines_set s') /\
     (forall c s', button_release c s = Ok s' -> baselines_set s') /\
     (forall c b s', motion c b s = Ok s' -> baselines_set s')).
Proof.
  intros K. split; [reflexivity |].
  split; [| split; [| split; [| split; [| split]]]].
  - split; [reflexivity |]. intros h.
    split.
    { intros e. unfold HighlightList.load.
      destruct (HighlightList.ini h) as [v |].
      - split; [discriminate | intros (E & _); discriminate E].
      - split; [intros [= <-]; auto | intros (_ & ->); reflexivity]. }
    split; [reflexivity |]. split; [reflexivity |].
    split; [reflexivity |]. split; [reflexivity |].
    split.
    { intros h'. unfold HighlightList.load.
      destruct (HighlightList.ini h) as [v |] eqn:E; [| discriminate].
      intros [= <-]. exact E. }
    split.
    { intros h' e. unfold HighlightList.pop.
      destruct (rev (HighlightList.l h)); [discriminate |].
      intros [= <- _]. reflexivity. }
    intros x h'. unfold HighlightList.remove.
    destruct (HighlightList.list_remove (x, true) (HighlightList.l h));
      [| discriminate].
    intros [= <-]. reflexivity.
  - intros v h. split; [reflexivity |]. split; [reflexivity |].
    split; [unfold HighlightList.load; simpl;
            destruct (HighlightList.ini h); reflexivity |].
    split; [reflexivity |]. split; [reflexivity |].
    split; [unfold HighlightList.pop; simpl;
            destruct (rev (HighlightList.l h)); reflexivity |].
    split; [| reflexivity].
    intros x. unfold HighlightList.remove. simpl.
    destruct (HighlightList.list_remove (x, true) (HighlightList.l h)); reflexivity.
  - intros self c. split; reflexivity.
  - intros vp self Hs. rewrite GTool_enter_eq.
    pose (s0 := _hl_reset
                  (set_click_coor None
                     (set_dragged false
                        (set_base (ObjSelector_enter vp (base (GTool_init self)))
                           (GTool_init self))))).
    destruct (_pre_update_Ok s0 (_hl_reset_baselines_set _) Hs)
      as (wp & ws & wh & Hbl & Hpre).
    unfold baselines in Hbl. simpl in Hbl. injection Hbl as <- <- <-.
    exists (set_update (HFun m_update_basic)
              (_hl_update
                 (pre_updated [] [] []
                    (py_quot (find_radius_pix (base s0)) (self_scale s0)) s0))).
    split.
    { unfold reset. fold s0. rewrite Hpre. reflexivity. }
    split; reflexivity.
  - intros vp self s' He. rewrite GTool_enter_eq in He.
    eapply reset_baselines_set; eassumption.
  - intros s Hb. split; [apply _hl_load_Ok; exact Hb |].
    split; [intros s'; apply reset_baselines_set; exact K |].
    split; [intros c s' Hp; eapply button_press_baselines_set; eassumption |].
    split; [intros c s' Hp; eapply button_release_baselines_set; eassumption |].
    intros c b s' Hp; eapply motion_baselines_set; eassumption.
Qed.

(** ** The methods of the two tools leave the press state and the baselines alone *)

Lemma select_by_coor_frame `{Signature} (c : coor) (sel : selector) (perm : bool)
  (filter_f : filter_t) (s s' : GTool) (r : pick) :
  select_by_coor c sel perm filter_f s = Ok (s', r) ->
  press_state s' = press_state s /\ baselines s' = baselines s.
Proof.
  unfold select_by_coor. intros Hs.
  apply bind_Ok in Hs as ([b r0] & _ & Hs).
  destruct r0 as [[obj nobj] |]; injection Hs as <- <-; split; reflexivity.
Qed.

Lemma hide_set_show_all_frame `{GToolHide.Collab} (value : bool) (s : GTool) :
  press_state (GToolHide.set_show_all value s) = press_state s /\
  baselines (GToolHide.set_show_all value s) = baselines s.
Proof.
  unfold GToolHide.set_show_all.
  destruct (negb _); split; reflexivity.
Qed.

Lemma hide_call_frame `{GToolHide.Collab} (f : GToolHide.method) (args : list value)
  (s s' : GTool) :
  GToolHide.hide_call f args s = Ok s' ->
  press_state s' = press_state s /\ baselines s' = baselines s.
Proof.
  unfold GToolHide.hide_call. intros Hc.
  destruct f; destruct args as [| [] [|]]; try discriminate.
  - unfold GToolHide.update_basic, select_pcl in Hc.
    apply bind_Ok in Hc as ([s1 r] & E1 & Hc).
    apply select_by_coor_frame in E1 as (P & B).
    destruct r as [[obj n] |]; injection Hc as <-; rewrite <- P, <- B;
      split; reflexivity.
  - unfold GToolHide.update_unhide, select_pcl in Hc.
    apply bind_Ok in Hc as ([s1 r] & E1 & Hc).
    apply select_by_coor_frame in E1 as (P & B).
    destruct r as [[obj n] |]; injection Hc as <-; rewrite <- P, <- B;
      split; reflexivity.
  - injection Hc as <-. apply hide_set_show_all_frame.
  - injection Hc as <-. split; reflexivity.
  - injection Hc as <-. unfold GToolHide.unhide.
    match goal with
    | |- context [GToolHide.set_show_all false ?x] =>
        destruct (hide_set_show_all_frame false x) as (P & B)
    end.
    rewrite P, B. split; reflexivity.
  - injection Hc as <-. apply hide_set_show_all_frame.
Qed.

Lemma hide_keeps_press_state `{GToolHide.Collab} : keeps_press_state.
Proof.
  intros f args s s' Hc. apply hide_call_frame in Hc. tauto.
Qed.

Lemma hide_keeps_baselines `{GToolHide.Collab} : keeps_baselines.
Proof.
  intros f args s s' Hc Hb. apply hide_call_frame in Hc as (_ & B).
  eapply baselines_set_eq; eassumption.
Qed.

Lemma move_call_frame `{GToolMove.Collab} (f : GToolMove.method) (args : list value)
  (s s' : GTool) :
  GToolMove.move_call f args s = Ok s' ->
  press_state s' = press_state s /\ baselines s' = baselines s.
Proof.
  unfold GToolMove.move_call. intros Hc.
  destruct f.
  - destruct args as [| [] [|]]; try discriminate.
    unfold GToolMove.update_basic, select_pcl in Hc.
    apply bind_Ok in Hc as ([s1 r] & E1 & Hc).
    apply select_by_coor_frame in E1 as (P & B).
    destruct r as [[obj n] |]; injection Hc as <-; rewrite <- P, <- B;
      split; reflexivity.
  - destruct args; [| discriminate]. injection Hc as <-. split; reflexivity.
  - destruct args as [| [] [| [] [| [] [| [] [|]]]]]; try discriminate.
    unfold GToolMove.move_obj in Hc.
    apply bind_Ok in Hc as (s1 & E1 & Hc). injection Hc as <-.
    destruct (GToolMove.is_Intersection _).
    + destruct (GToolMove.hyper_params _) as [| k [|]]; try discriminate.
      apply bind_Ok in E1 as (alt & _ & E1). injection E1 as <-.
      split; reflexivity.
    + injection E1 as <-. split; reflexivity.
  - destruct args; [| discriminate]. injection Hc as <-. split; reflexivity.
  - destruct args; [| discriminate]. injection Hc as <-. split; reflexivity.
Qed.

Lemma move_keeps_press_state `{GToolMove.Collab} : keeps_press_state.
Proof.
  intros f args s s' Hc. apply move_call_frame in Hc. tauto.
Qed.

Lemma move_keeps_baselines `{GToolMove.Collab} : keeps_baselines.
Proof.
  intros f args s s' Hc Hb. apply move_call_frame in Hc as (_ & B).
  eapply baselines_set_eq; eassumption.
Qed.

(** ** The move tool: the other intersection is a proposal *)








(** ** The hide tool *)

Lemma coor_to_obj_total `{Scene} (c : coor) (l : list (gi * num))
  (filter_f : filter_t) (self : ObjSelector) :
  ~ (scale (viewport self) == 0)%Q ->
  exists r,
    coor_to_obj c l filter_f self
    = Ok (set_find_radius (py_quot (find_radius_pix self) (scale (viewport self))) self, r).
Proof.
  intros Hs. pose proof (coor_to_obj_first_min c l filter_f self Hs) as Hc.
  simpl in Hc. destruct (apply_filter filter_f l).
  - eauto.
  - destruct Hc as (m & _ & Hc). eauto.
Qed.

Lemma coor_to_pcl_total `{Scene} (c : coor) (filter_f : filter_t) (self : ObjSelector) :
  ~ (scale (viewport self) == 0)%Q ->
  exists r,
    coor_to_pcl c filter_f self
    = Ok (set_find_radius (py_quot (find_radius_pix self) (scale (viewport self))) self, r).
Proof.
  intros Hs. unfold coor_to_pcl, coor_to_attempts, coor_to_point.
  destruct (coor_to_obj_total c (selectable_points (vis (viewport self)))
              filter_f self Hs) as (r1 & ->).
  simpl. destruct r1 as [p |]; [eauto |].
  unfold coor_to_cl.
  destruct (coor_to_obj_total c
              (selectable_lines (vis (viewport self))
               ++ selectable_circles (vis (viewport self)))
              filter_f
              (set_find_radius (py_quot (find_radius_pix self) (scale (viewport self))) self)
              Hs) as (r2 & Hr2).
  simpl in Hr2. simpl. rewrite Hr2. simpl. destruct r2; eauto.
Qed.

(** A picker reads the pixel radius and the viewport only. *)
Lemma coor_to_pcl_find_radius `{Scene} (c : coor) (filter_f : filter_t)
  (r : Q) (self : ObjSelector) :
  coor_to_pcl c filter_f (set_find_radius r self) = coor_to_pcl c filter_f self.
Proof.
  unfold coor_to_pcl, coor_to_attempts, coor_to_point, coor_to_cl, coor_to_obj,
    _update_find_radius.
  simpl. destruct (py_truediv _ _); reflexivity.
Qed.

Lemma _hl_update_flags `{GToolHide.Collab} (s : GTool) :
  hide_collab_ok ->
  show_all (_hl_update s) = show_all s /\
  (forall g, hidden (_hl_update s) g = hidden s g).
Proof.
  intros (Hs & Hp & Hh & _). unfold show_all, hidden, _hl_update. simpl.
  destruct (Hh (HighlightList.to_list (hl_helpers s))
              (update_hl_proposals (HighlightList.to_list (hl_proposals s))
                 (update_hl_selected (HighlightList.to_list (hl_selected s))
                    (self_vis s)))) as (A1 & A2).
  destruct (Hp (HighlightList.to_list (hl_proposals s))
              (update_hl_selected (HighlightList.to_list (hl_selected s))
                 (self_vis s))) as (B1 & B2).
  destruct (Hs (HighlightList.to_list (hl_selected s)) (self_vis s)) as (C1 & C2).
  split.
  - etransitivity; [exact A1 |]. etransitivity; [exact B1 | exact C1].
  - intros g. etransitivity; [apply A2 |]. etransitivity; [apply B2 | apply C2].
Qed.

Lemma set_show_all_flags `{GToolHide.Collab} (value : bool) (s : GTool) :
  hide_collab_ok ->
  show_all (GToolHide.set_show_all value s) = value /\
  (forall g, hidden (GToolHide.set_show_all value s) g = hidden s g) /\
  self_scale (GToolHide.set_show_all value s) = self_scale s.
Proof.
  intros (_ & _ & _ & Hr & Hc). unfold GToolHide.set_show_all.
  destruct (negb (Bool.eqb (GToolHide.show_all_mode (self_vis s)) value)) eqn:E.
  - unfold show_all, hidden, self_scale. simpl.
    match goal with
    | |- context [GToolHide.vis_refresh ?v] =>
        destruct (Hr v) as (R1 & R2)
    end.
    match goal with
    | |- context [GToolHide.set_cursor_by_tool ?vp] =>
        destruct (Hc vp) as (C0 & C1 & C2)
    end.
    split; [| split].
    + etransitivity; [exact R1 |]. etransitivity; [exact C1 |]. reflexivity.
    + intros g. etransitivity; [apply R2 |]. etransitivity; [apply C2 |].
      reflexivity.
    + exact C0.
  - apply negb_false_iff, eqb_prop in E.
    split; [exact E |]. split; reflexivity.
Qed.

Ltac hide_frame_after_update Hok Hb :=
  match goal with
  | |- hide_frame _ (_hl_update ?x) =>
      let F1 := fresh "F" in
      let F2 := fresh "F" in
      destruct (_hl_update_flags x Hok) as (F1 & F2);
      unfold hide_frame; rewrite F1; split; [reflexivity |];
      split; [intros ?; rewrite F2; reflexivity |];
      repeat (split; [reflexivity |]);
      unfold baselines_set; simpl; exact Hb
  end.

Lemma hide_update_basic_cycle `{GToolHide.Collab} (c : coor) (s : GTool) :
  hide_collab_ok ->
  baselines_set s -> ~ (self_scale s == 0)%Q ->
  update s = HFun GToolHide.UpdateBasic ->
  exists b r s',
    coor_to_pcl c None (base s) = Ok (b, r) /\
    _run_update c s = Ok s' /\
    hide_frame s s' /\
    drag s' = None /\
    match r with
    | None =>
        confirm s' = Some (HTuple GToolHide.SetShowAll [VBool true]) /\
        confirm_next s' = Some (HFun GToolHide.UpdateUnhide)
    | Some p =>
        confirm s' = Some (HTuple GToolHide.VisHide [VObj (fst p)]) /\
        confirm_next s' = None
    end.
Proof.
  intros Hok Hb Hs Hu.
  destruct (_pre_update_Ok s Hb Hs) as (vp & vs & vh & Hbl & Hpre).
  destruct (coor_to_pcl_total c None (base s) Hs) as (r & Hpick).
  assert (Hrun : _run_update c s
                 = (let! s1 := GToolHide.update_basic c
                                 (pre_updated vp vs vh
                                    (py_quot (find_radius_pix (base s)) (self_scale s)) s) in
                    Ok (_hl_update s1))).
  { unfold _run_update. rewrite Hpre. simpl. rewrite Hu. reflexivity. }
  destruct r as [[obj n] |];
    (eexists _, _, _; split; [exact Hpick |]);
    rewrite Hrun; clear Hrun;
    unfold GToolHide.update_basic, select_pcl, select_by_coor; simpl;
    rewrite coor_to_pcl_find_radius; simpl in Hpick; rewrite Hpick; simpl;
    (split; [reflexivity |]);
    (split; [hide_frame_after_update Hok Hb |]);
    repeat split.
Qed.

Lemma hide_update_unhide_cycle `{GToolHide.Collab} (c : coor) (s : GTool) :
  hide_collab_ok ->
  baselines_set s -> ~ (self_scale s == 0)%Q ->
  update s = HFun GToolHide.UpdateUnhide ->
  exists b r s',
    coor_to_pcl c (Some (fun g _ => hidden s g)) (base s) = Ok (b, r) /\
    _run_update c s = Ok s' /\
    hide_frame s s' /\
    drag s' = None /\
    confirm_next s' = None /\
    match r with
    | None => confirm s' = Some (HTuple GToolHide.SetShowAll [VBool false])
    | Some p => confirm s' = Some (HTuple GToolHide.Unhide [VObj (fst p)])
    end.
Proof.
  intros Hok Hb Hs Hu.
  destruct (_pre_update_Ok s Hb Hs) as (vp & vs & vh & Hbl & Hpre).
  destruct (coor_to_pcl_total c (Some (fun g _ => hidden s g)) (base s) Hs)
    as (r & Hpick).
  assert (Hrun : _run_update c s
                 = (let! s1 := GToolHide.update_unhide c
                                 (pre_updated vp vs vh
                                    (py_quot (find_radius_pix (base s)) (self_scale s)) s) in
                    Ok (_hl_update s1))).
  { unfold _run_update. rewrite Hpre. simpl. rewrite Hu. reflexivity. }
  destruct r as [[obj n] |];
    (eexists _, _, _; split; [exact Hpick |]);
    rewrite Hrun; clear Hrun;
    unfold GToolHide.update_unhide, select_pcl, select_by_coor; simpl;
    rewrite coor_to_pcl_find_radius;
    unfold hidden, self_vis in Hpick; simpl in Hpick;
    unfold self_vis, pre_updated; simpl;
    rewrite Hpick; simpl;
    (split; [reflexivity |]);
    (split; [hide_frame_after_update Hok Hb |]);
    repeat split.
Qed.

Lemma set_show_all_fields `{GToolHide.Collab} (value : bool) (s : GTool) :
  update (GToolHide.set_show_all value s) = update s /\
  on_reset (GToolHide.set_show_all value s) = on_reset s /\
  confirm_next (GToolHide.set_show_all value s) = confirm_next s /\
  click_coor (GToolHide.set_show_all value s) = click_coor s /\
  baselines (GToolHide.set_show_all value s) = baselines s.
Proof.
  unfold GToolHide.set_show_all. destruct (negb _); repeat split.
Qed.

(** A click of the hide tool with nothing under the cursor. *)
Lemma hide_click_empty `{GToolHide.Collab} (c : coor) (s : GTool) (b : ObjSelector) :
  hide_collab_ok ->
  baselines_set s -> ~ (self_scale s == 0)%Q ->
  click_coor s = None ->
  update s = HFun GToolHide.UpdateBasic ->
  coor_to_pcl c None (base s) = Ok (b, None) ->
  exists s',
    button_press c s = Ok s' /\
    show_all s' = true /\
    update s' = HFun GToolHide.UpdateUnhide.
Proof.
  intros Hok Hb Hs Hc Hu Hpick.
  destruct (hide_update_basic_cycle c s Hok Hb Hs Hu)
    as (b1 & r & s1 & Hpick1 & Hrun1 & (_ & _ & Hsc1 & _) & Hdrag1 & Hconf).
  rewrite Hpick in Hpick1. injection Hpick1 as _ <-.
  destruct Hconf as (Hcf & Hcn).
  pose (s2 := GToolHide.set_show_all true
                (set_confirm_cycles (S (confirm_cycles s1)) s1)).
  pose (s3 := _hl_save (set_update (HFun GToolHide.UpdateUnhide) s2)).
  assert (Hconfirm : _run_confirm s1 = Ok s3).
  { unfold _run_confirm. simpl. rewrite Hcf. simpl. fold s2.
    destruct (set_show_all_fields true
                (set_confirm_cycles (S (confirm_cycles s1)) s1))
      as (_ & _ & Hn & _).
    fold s2 in Hn. simpl in Hn. rewrite Hn, Hcn. reflexivity. }
  destruct (set_show_all_flags true
              (set_confirm_cycles (S (confirm_cycles s1)) s1) Hok)
    as (Hsa & _ & Hsc).
  fold s2 in Hsa, Hsc.
  assert (Hs3 : ~ (self_scale s3 == 0)%Q).
  { change (self_scale s3) with (self_scale s2). rewrite Hsc.
    change (self_scale (set_confirm_cycles (S (confirm_cycles s1)) s1))
      with (self_scale s1).
    rewrite Hsc1. exact Hs. }
  destruct (hide_update_unhide_cycle c s3 Hok
              (_hl_save_baselines_set _) Hs3 eq_refl)
    as (b4 & r4 & s4 & _ & Hrun4 & (Hf1 & _ & _ & Hf4 & _) & _).
  exists s4. split; [| split].
  - unfold button_press. rewrite Hc. simpl. rewrite Hrun1. simpl.
    rewrite Hdrag1. rewrite Hconfirm. simpl. exact Hrun4.
  - rewrite Hf1. exact Hsa.
  - rewrite Hf4. reflexivity.
Qed.

(** A click of the hide tool, in the unhide state, on a hidden object. *)
Lemma hide_click_hidden `{GToolHide.Collab} (c : coor) (s : GTool) (b : ObjSelector)
  (obj : gi) (n : num) :
  hide_collab_ok ->
  baselines_set s -> ~ (self_scale s == 0)%Q ->
  click_coor s = None ->
  update s = HFun GToolHide.UpdateUnhide ->
  on_reset s = HFun GToolHide.OnReset ->
  coor_to_pcl c (Some (fun g _ => hidden s g)) (base s) = Ok (b, Some (obj, n)) ->
  exists s',
    button_press c s = Ok s' /\
    hidden s' obj = false /\
    show_all s' = false /\
    update s' = HFun GToolHide.UpdateBasic.
Proof.
  intros Hok Hb Hs Hc Hu Hon Hpick.
  destruct (hide_update_unhide_cycle c s Hok Hb Hs Hu)
    as (b1 & r & s1 & Hpick1 & Hrun1 & (_ & _ & Hsc1 & _ & Hon1 & _) & Hdrag1
        & Hcn & Hcf).
  rewrite Hpick in Hpick1. injection Hpick1 as _ <-. simpl in Hcf.
  pose (s1c := set_confirm_cycles (S (confirm_cycles s1)) s1).
  pose (s1h := set_vis (GToolHide.set_hidden obj false (self_vis s1c)) s1c).
  pose (s2 := GToolHide.set_show_all false s1h).
  pose (x := set_update (HFun GToolHide.UpdateBasic) (_hl_reset s2)).
  pose (s3 := GToolHide.set_show_all false x).
  destruct (set_show_all_fields false s1h) as (_ & Hon2 & Hn2 & _).
  fold s2 in Hon2, Hn2.
  assert (Hconfirm : _run_confirm s1 = Ok s3).
  { unfold _run_confirm. simpl. rewrite Hcf. simpl.
    unfold GToolHide.unhide. fold s1c. fold s1h. fold s2. simpl.
    rewrite Hn2. simpl. rewrite Hcn. simpl. rewrite Hon2. simpl.
    rewrite Hon1, Hon. reflexivity. }
  destruct (set_show_all_flags false s1h Hok) as (A1 & A2 & A3).
  fold s2 in A1, A2, A3.
  destruct (set_show_all_flags false x Hok) as (B1 & B2 & B3).
  fold s3 in B1, B2, B3.
  destruct (set_show_all_fields false x) as (Hu3 & _ & _ & _ & Hbl3).
  fold s3 in Hu3, Hbl3.
  assert (Hb3 : baselines_set s3).
  { eapply baselines_set_eq; [exact Hbl3 |].
    apply (_hl_reset_baselines_set s2). }
  assert (Hs3 : ~ (self_scale s3 == 0)%Q).
  { rewrite B3. change (self_scale x) with (self_scale s2). rewrite A3.
    change (self_scale s1h) with (self_scale s1). rewrite Hsc1. exact Hs. }
  destruct (hide_update_basic_cycle c s3 Hok Hb3 Hs3 Hu3)
    as (b4 & r4 & s4 & _ & Hrun4 & (F1 & F2 & _ & F4 & _) & _).
  exists s4. split; [| split; [| split]].
  - unfold button_press. rewrite Hc. simpl. rewrite Hrun1. simpl.
    rewrite Hdrag1. rewrite Hconfirm. simpl. exact Hrun4.
  - rewrite F2, B2. change (hidden x obj) with (hidden s2 obj). rewrite A2.
    unfold hidden, s1h. simpl. rewrite Nat.eqb_refl. reflexivity.
  - rewrite F1. exact B1.
  - rewrite F4. exact Hu3.
Qed.

(** [reset] and [leave] of the hide tool end with show-all mode off. *)
Lemma hide_reset_show_all_off `{GToolHide.Collab} (s : GTool) :
  hide_collab_ok ->
  ~ (self_scale s == 0)%Q ->
  on_reset s = HFun GToolHide.OnReset ->
  exists s', reset s = Ok s' /\ show_all s' = false.
Proof.
  intros Hok Hs Hon.
  pose (s0 := _hl_reset (set_click_coor None (set_dragged false s))).
  destruct (_pre_update_Ok s0 (_hl_reset_baselines_set _) Hs)
    as (vp & vs & vh & _ & Hpre).
  eexists. split.
  - unfold reset. fold s0. rewrite Hpre. simpl. rewrite Hon. simpl.
    reflexivity.
  - unfold GToolHide.on_reset.
    match goal with
    | |- show_all (GToolHide.set_show_all false ?y) = false =>
        destruct (set_show_all_flags false y Hok) as (A & _)
    end.
    exact A.
Qed.

Lemma hide_leave_show_all_off `{GToolHide.Collab} (s : GTool) :
  hide_collab_ok ->
  ~ (self_scale s == 0)%Q ->
  on_reset s = HFun GToolHide.OnReset ->
  exists s', GToolHide.leave s = Ok s' /\ show_all s' = false.
Proof.
  intros Hok Hs Hon.
  destruct (set_show_all_flags false s Hok) as (_ & _ & Hsc).
  destruct (set_show_all_fields false s) as (_ & Hon' & _).
  assert (Hs' : ~ (self_scale (GToolHide.set_show_all false s) == 0)%Q)
    by (rewrite Hsc; exact Hs).
  destruct (hide_reset_show_all_off (GToolHide.set_show_all false s) Hok Hs')
    as (s' & Hr & Hsa).
  { rewrite Hon'. exact Hon. }
  eexists. split.
  - unfold GToolHide.leave, GTool_leave. rewrite Hr. simpl. reflexivity.
  - exact Hsa.
Qed.

(** C7. For the hide tool, with collaborators that leave the flags and
    the scale alone and a viewport scale that is not zero: a click with no
    object under the cursor ends in show-all mode with [update_unhide] as
    the update handler; in that state a click on a hidden object ends with
    that object's hidden flag false, show-all mode off and [update_basic]
    as the update handler; and [reset], and [leave], end with show-all
    mode off from every state of the tool. *)
Theorem hide_show_all_chain `{GToolHide.Collab} (c : coor) (s : GTool) :
  hide_collab_ok ->
  ~ (self_scale s == 0)%Q ->
  on_reset s = HFun GToolHide.OnReset ->
  (forall b,
     baselines_set s -> click_coor s = None ->
     update s = HFun GToolHide.UpdateBasic ->
     coor_to_pcl c None (base s) = Ok (b, None) ->
     exists s',
       button_press c s = Ok s' /\
       show_all s' = true /\
       update s' = HFun GToolHide.UpdateUnhide) /\
  (forall b obj n,
     baselines_set s -> click_coor s = None ->
     update s = HFun GToolHide.UpdateUnhide ->
     coor_to_pcl c (Some (fun g _ => hidden s g)) (base s) = Ok (b, Some (obj, n)) ->
     exists s',
       button_press c s = Ok s' /\
       hidden s' obj = false /\
       show_all s' = false /\
       update s' = HFun GToolHide.UpdateBasic) /\
  (exists s', reset s = Ok s' /\ show_all s' = false) /\
  (exists s', GToolHide.leave s = Ok s' /\ show_all s' = false).
Proof.
  intros Hok Hs Hon. split; [| split; [| split]].
  - intros b Hb Hc Hu Hp. eapply hide_click_empty; eassumption.
  - intros b obj n Hb Hc Hu Hp. eapply hide_click_hidden; eassumption.
  - apply hide_reset_show_all_off; assumption.
  - apply hide_leave_show_all_off; assumption.
Qed.

(** * The claims on the two scenes *)

Section OnTheMoveScene.

#[local] Existing Instance DemoMove.world.
#[local] Existing Instance DemoMove.collab.

Lemma demo_move_pressed :
  click_coor DemoMove.pressed = Some (1, 0)%Q /\
  dragged DemoMove.pressed = false /\
  drag DemoMove.pressed
  = Some (HTuple GToolMove.MoveObj [VStep 0; VGrasp tt; VNums []]) /\
  button_press (1, 0)%Q DemoMove.entered = Ok DemoMove.pressed.
Proof. vm_compute. repeat split. Qed.



(** C10, as it was stated, fails: the motion event with the button up
    does not stop at the reset; the update cycle that follows has selected
    the object under the cursor and stored a drag handler again. *)
Lemma motion_button_up_is_not_reset :
  motion (3, 0)%Q false DemoMove.pressed <> reset DemoMove.pressed.
Proof.
  assert (Hm : motion (3, 0)%Q false DemoMove.pressed = Ok DemoMove.moved_button_up)
    by (vm_compute; reflexivity).
  assert (Hr : reset DemoMove.pressed = Ok DemoMove.cancelled)
    by (vm_compute; reflexivity).
  rewrite Hm, Hr. intros Heq.
  apply (f_equal (fun r => match r with Ok s => drag s | Raise _ => None end)) in Heq.
  vm_compute in Heq. discriminate Heq.
Qed.

Lemma press_while_pressed_witness :
  keeps_press_state /\
  click_coor DemoMove.pressed = Some (1, 0)%Q /\
  button_press (3, 0)%Q DemoMove.pressed
  = (let! s' := reset DemoMove.pressed in button_press (3, 0)%Q s').
Proof.
  split; [exact move_keeps_press_state |].
  split; [vm_compute; reflexivity |].
  apply (proj1 (press_while_pressed (3, 0)%Q (1, 0)%Q DemoMove.pressed
                  move_keeps_press_state eq_refl)).
Defined.

Lemma motion_button_up_witness :
  keeps_press_state /\
  forall s', motion (3, 0)%Q false DemoMove.pressed = Ok s' -> click_coor s' = None.
Proof.
  split; [exact move_keeps_press_state |].
  exact (proj2 (proj2 (motion_button_up (3, 0)%Q DemoMove.pressed
                         move_keeps_press_state))).
Defined.



End OnTheMoveScene.

Section OnTheHideScene.

#[local] Existing Instance DemoHide.world.
#[local] Existing Instance DemoHide.collab.

Lemma demo_hide_collab_ok : hide_collab_ok.
Proof.
  unfold hide_collab_ok, vis_flags_kept. simpl. repeat split.
Qed.

(** Two points at distances 1/10 and 5 from the cursor, at scale 20: the
    tolerance is 1 and the nearer point is returned. *)
Lemma coor_to_obj_nearest_witness :
  let self :=
    ObjSelector_init
      (mkObjSelector _ 0 None {| scale := 20; vis := DemoHide.the_vis; env := tt |}) in
  let l : list (gi * num) := [(0, ((1 # 10)%Q, 0%Q)); (1, (5, 0)%Q)] in
  find_radius_pix self = 20%Q /\
  ~ (scale (viewport self) == 0)%Q /\
  exists r,
    coor_to_obj (0, 0)%Q l None self
    = Ok (set_find_radius (py_quot 20 (scale (viewport self))) self, r).
Proof.
  intros self l.
  assert (Hpix : find_radius_pix self = 20%Q) by reflexivity.
  assert (Hs : ~ (scale (viewport self) == 0)%Q) by (vm_compute; discriminate).
  split; [exact Hpix |]. split; [exact Hs |].
  destruct (coor_to_obj_nearest (0, 0)%Q l None self Hpix Hs) as (r & Hr & _).
  exists r. exact Hr.
Defined.

Example nearest_of_two_points :
  let self :=
    ObjSelector_init
      (mkObjSelector _ 0 None {| scale := 20; vis := DemoHide.the_vis; env := tt |}) in
  let l : list (gi * num) := [(0, ((1 # 10)%Q, 0%Q)); (1, (5, 0)%Q)] in
  coor_to_obj (0, 0)%Q l None self
  = Ok (set_find_radius (py_quot 20 20) self, Some (0, ((1 # 10)%Q, 0%Q))).
Proof. vm_compute. reflexivity. Qed.

(** The tolerance is the float that the division gives: at scale 11 it is
    8188362958855447 / 2^52, a little below 20/11, and a candidate at that
    very distance is not picked. *)
Example tolerance_is_the_float_quotient :
  let self :=
    ObjSelector_init
      (mkObjSelector _ 0 None {| scale := 11; vis := DemoHide.the_vis; env := tt |}) in
  let d := (8188362958855447 # 4503599627370496)%Q in
  py_quot 20 11 = d /\
  (d < 20 / 11)%Q /\
  coor_to_obj (0, 0)%Q [(0, (d, 0%Q))] None self
  = Ok (set_find_radius d self, None).
Proof. vm_compute. repeat split. Qed.

Lemma hide_show_all_chain_witness :
  hide_collab_ok /\
  ~ (self_scale DemoHide.entered == 0)%Q /\
  on_reset DemoHide.entered = HFun GToolHide.OnReset /\
  exists s',
    button_press (50, 50)%Q DemoHide.entered = Ok s' /\
    show_all s' = true /\
    update s' = HFun GToolHide.UpdateUnhide.
Proof.
  assert (Hs : ~ (self_scale DemoHide.entered == 0)%Q) by (vm_compute; discriminate).
  assert (Hon : on_reset DemoHide.entered = HFun GToolHide.OnReset)
    by (vm_compute; reflexivity).
  split; [exact demo_hide_collab_ok |]. split; [exact Hs |]. split; [exact Hon |].
  eapply (proj1 (hide_show_all_chain (50, 50)%Q DemoHide.entered
                   demo_hide_collab_ok Hs Hon)).
  - vm_compute. repeat split; eexists; reflexivity.
  - vm_compute. reflexivity.
  - vm_compute. reflexivity.
  - vm_compute. reflexivity.
Defined.

Lemma load_before_save_raises_witness :
  keeps_baselines /\
  GTool_enter DemoHide.the_viewport (GTool_init DemoHide.blank)
  = Ok DemoHide.entered /\
  baselines_set DemoHide.entered.
Proof.
  assert (He : GTool_enter DemoHide.the_viewport (GTool_init DemoHide.blank)
               = Ok DemoHide.entered) by (vm_compute; reflexivity).
  split; [exact hide_keeps_baselines |]. split; [exact He |].
  exact (proj1 (proj2 (proj2 (proj2 (proj2 (proj2
           (load_before_save_raises hide_keeps_baselines))))))
           DemoHide.the_viewport DemoHide.blank DemoHide.entered He).
Defined.

End OnTheHideScene.


(** * Further properties of the pickers *)

Lemma coor_to_obj_zero_scale `{Scene} (c : coor) (l : list (gi * num))
  (filter_f : filter_t) (self : ObjSelector) :
  (scale (viewport self) == 0)%Q ->
  coor_to_obj c l filter_f self = Raise ZeroDivisionError.
Proof.
  intros Hz. unfold coor_to_obj, _update_find_radius.
  rewrite py_truediv_zero by exact Hz. reflexivity.
Qed.

(** Ties in distance go to the candidate that comes first in the list:
    a candidate returned by [coor_to_obj] is strictly nearer than every
    filtered candidate before it and at least as near as every one after
    it. *)
Theorem coor_to_obj_first_seen `{Scene} (c : coor) (l : list (gi * num))
  (filter_f : filter_t) (self self' : ObjSelector) (p : gi * num) :
  coor_to_obj c l filter_f self = Ok (self', Some p) ->
  exists pre post,
    apply_filter filter_f l = pre ++ p :: post /\
    (forall q, In q pre -> (dist_from (snd p) c < dist_from (snd q) c)%Q) /\
    (forall q, In q post -> (dist_from (snd p) c <= dist_from (snd q) c)%Q).
Proof.
  intros Hc. destruct (Qeq_dec (scale (viewport self)) 0) as [Hz | Hnz].
  { rewrite (coor_to_obj_zero_scale c l filter_f self Hz) in Hc. discriminate. }
  pose proof (coor_to_obj_first_min c l filter_f self Hnz) as Hm. simpl in Hm.
  destruct (apply_filter filter_f l) as [| x rest].
  - rewrite Hm in Hc. discriminate.
  - destruct Hm as (m & Hfirst & Hm). rewrite Hm in Hc.
    destruct (py_ge _ _); [discriminate |].
    injection Hc as _ <-. exact Hfirst.
Qed.

Lemma coor_to_obj_settled `{Scene} (c : coor) (l : list (gi * num))
  (filter_f : filter_t) (self self' : ObjSelector) (r : pick) :
  coor_to_obj c l filter_f self = Ok (self', r) ->
  self' = set_find_radius (py_quot (find_radius_pix self) (scale (viewport self))) self /\
  coor_to_obj c l filter_f self' = Ok (self', r).
Proof.
  intros Hc. destruct (Qeq_dec (scale (viewport self)) 0) as [Hz | Hnz].
  { rewrite (coor_to_obj_zero_scale c l filter_f self Hz) in Hc. discriminate. }
  destruct (coor_to_obj_total c l filter_f self Hnz) as (r0 & Hr).
  rewrite Hr in Hc. injection Hc as <- <-.
  split; [reflexivity |]. rewrite <- Hr.
  unfold coor_to_obj, _update_find_radius. simpl.
  destruct (py_truediv _ _); reflexivity.
Qed.

(** A picker changes [find_radius] only, and asking again gives the same
    answer. *)
Theorem coor_to_obj_again `{Scene} (c : coor) (l : list (gi * num))
  (filter_f : filter_t) (self self' : ObjSelector) (r : pick) :
  coor_to_obj c l filter_f self = Ok (self', r) ->
  viewport self' = viewport self /\
  find_radius_pix self' = find_radius_pix self /\
  find_radius self' = Some (py_quot (find_radius_pix self) (scale (viewport self))) /\
  coor_to_obj c l filter_f self' = Ok (self', r).
Proof.
  intros Hc. destruct (coor_to_obj_settled c l filter_f self self' r Hc)
    as (-> & Hagain).
  repeat split. exact Hagain.
Qed.

Lemma coor_to_attempts_two `{Scene} (c : coor) (filter_f : filter_t)
  (l1 l2 : Vis -> list (gi * num)) (self : ObjSelector) :
  ~ (scale (viewport self) == 0)%Q ->
  let self' :=
    set_find_radius (py_quot (find_radius_pix self) (scale (viewport self))) self in
  exists r1 r2,
    coor_to_obj c (l1 (vis (viewport self))) filter_f self = Ok (self', r1) /\
    coor_to_obj c (l2 (vis (viewport self))) filter_f self = Ok (self', r2) /\
    coor_to_attempts c
      [fun c f s => coor_to_obj c (l1 (vis (viewport s))) f s;
       fun c f s => coor_to_obj c (l2 (vis (viewport s))) f s]
      filter_f self
    = Ok (self', match r1 with Some p => Some p | None => r2 end).
Proof.
  intros Hs self'.
  destruct (coor_to_obj_total c (l1 (vis (viewport self))) filter_f self Hs)
    as (r1 & H1).
  destruct (coor_to_obj_total c (l2 (vis (viewport self))) filter_f self Hs)
    as (r2 & H2).
  exists r1, r2. fold self' in H1, H2.
  split; [exact H1 |]. split; [exact H2 |].
  unfold coor_to_attempts. rewrite H1. simpl.
  destruct r1 as [p |]; [reflexivity |].
  destruct (coor_to_obj_settled c (l2 (vis (viewport self))) filter_f self self' r2 H2)
    as (_ & Hagain).
  change (vis (viewport self')) with (vis (viewport self)).
  rewrite Hagain. destruct r2; reflexivity.
Qed.

(** The combined pickers give priority to points: [coor_to_pcl],
    [coor_to_pl] and [coor_to_pc] return the point picked by
    [coor_to_point] when there is one, even if a line or circle is nearer,
    and otherwise what [coor_to_cl], [coor_to_line], [coor_to_circle]
    returns; in [coor_to_cl] lines and circles compete by distance. *)
Theorem point_priority `{Scene} (c : coor) (filter_f : filter_t) (self : ObjSelector) :
  ~ (scale (viewport self) == 0)%Q ->
  let self' :=
    set_find_radius (py_quot (find_radius_pix self) (scale (viewport self))) self in
  exists rp rl rc rcl,
    coor_to_point c filter_f self = Ok (self', rp) /\
    coor_to_line c filter_f self = Ok (self', rl) /\
    coor_to_circle c filter_f self = Ok (self', rc) /\
    coor_to_cl c filter_f self = Ok (self', rcl) /\
    coor_to_pcl c filter_f self
    = Ok (self', match rp with Some p => Some p | None => rcl end) /\
    coor_to_pl c filter_f self
    = Ok (self', match rp with Some p => Some p | None => rl end) /\
    coor_to_pc c filter_f self
    = Ok (self', match rp with Some p => Some p | None => rc end).
Proof.
  intros Hs self'.
  destruct (coor_to_attempts_two c filter_f selectable_points
              (fun v => selectable_lines v ++ selectable_circles v) self Hs)
    as (rp & rcl & Hp & Hcl & Hpcl).
  destruct (coor_to_attempts_two c filter_f selectable_points selectable_lines
              self Hs) as (rp1 & rl & Hp1 & Hl & Hpl).
  destruct (coor_to_attempts_two c filter_f selectable_points selectable_circles
              self Hs) as (rp2 & rc & Hp2 & Hc & Hpc).
  rewrite Hp in Hp1, Hp2. injection Hp1 as <-. injection Hp2 as <-.
  exists rp, rl, rc, rcl. fold self' in Hp, Hl, Hc, Hcl, Hpcl, Hpl, Hpc.
  repeat split; assumption.
Qed.

(** * Further properties of the highlight lists *)

(** [pop] undoes the last [add]: it returns the entry added last and
    leaves the entries before it; on an empty working list it raises
    IndexError.  The baseline is not touched. *)
Theorem add_pop `{Signature} (h : HighlightList.t) :
  (forall args x p,
     HighlightList.pop (HighlightList.add (args ++ [x]) p h)
     = Ok (HighlightList.add args p h, (x, p))) /\
  (forall v e,
     HighlightList.pop (HighlightList.set_l (v ++ [e]) h)
     = Ok (HighlightList.set_l v h, e)) /\
  HighlightList.pop (HighlightList.set_l [] h) = Raise IndexError /\
  (forall h' e,
     HighlightList.pop h = Ok (h', e) ->
     HighlightList.l h = HighlightList.l h' ++ [e] /\
     HighlightList.ini h' = HighlightList.ini h).
Proof.
  split; [| split; [| split]].
  - intros args x p. unfold HighlightList.pop, HighlightList.add. simpl.
    rewrite map_app, app_assoc. simpl. rewrite rev_unit, rev_involutive.
    reflexivity.
  - intros v e. unfold HighlightList.pop. simpl.
    rewrite rev_unit, rev_involutive. reflexivity.
  - reflexivity.
  - intros h' e. unfold HighlightList.pop.
    destruct (rev (HighlightList.l h)) as [| y r] eqn:Er; [discriminate |].
    intros [= <- <-]. simpl. split; [| reflexivity].
    rewrite <- (rev_involutive (HighlightList.l h)), Er. reflexivity.
Qed.

Lemma list_remove_spec `{Scene} (x : hl_item) (v : list (hl_item * bool)) :
  match HighlightList.list_remove (x, true) v with
  | Ok v' =>
      exists pre y post,
        v = pre ++ (y, true) :: post /\
        py_eq y x = true /\
        (forall z, In (z, true) pre -> py_eq z x = false) /\
        v' = pre ++ post
  | Raise e =>
      e = ValueError /\ forall z, In (z, true) v -> py_eq z x = false
  end.
Proof.
  induction v as [| [y q] v IH]; simpl.
  - split; [reflexivity |]. intros z [].
  - destruct (py_eq y x) eqn:Ey; simpl.
    + destruct q; simpl.
      * exists [], y, v. repeat split; try assumption. intros z [].
      * destruct (HighlightList.list_remove (x, true) v) as [v' | e]; simpl.
        -- destruct IH as (pre & y' & post & -> & Hy & Hpre & ->).
           exists ((y, false) :: pre), y', post. repeat split; try assumption.
           intros z [Hz | Hz]; [discriminate | auto].
        -- destruct IH as (-> & Hno). split; [reflexivity |].
           intros z [Hz | Hz]; [discriminate | auto].
    + destruct (HighlightList.list_remove (x, true) v) as [v' | e]; simpl.
      * destruct IH as (pre & y' & post & -> & Hy & Hpre & ->).
        exists ((y, q) :: pre), y', post. repeat split; try assumption.
        intros z [Hz | Hz]; [| auto]. injection Hz as -> _. exact Ey.
      * destruct IH as (-> & Hno). split; [reflexivity |].
        intros z [Hz | Hz]; [| auto]. injection Hz as -> _. exact Ey.
Qed.

(** [remove x] drops the first permanent entry equal to [x] and nothing
    else; entries that are not permanent are never removed by it; it
    raises ValueError exactly when no permanent entry equals [x]. *)
Theorem remove_first_permanent `{Scene} (x : hl_item) (h : HighlightList.t) :
  match HighlightList.remove x h with
  | Ok h' =>
      exists pre y post,
        HighlightList.l h = pre ++ (y, true) :: post /\
        py_eq y x = true /\
        (forall z, In (z, true) pre -> py_eq z x = false) /\
        HighlightList.l h' = pre ++ post /\
        HighlightList.ini h' = HighlightList.ini h
  | Raise e =>
      e = ValueError /\
      forall z, In (z, true) (HighlightList.l h) -> py_eq z x = false
  end.
Proof.
  unfold HighlightList.remove.
  pose proof (list_remove_spec x (HighlightList.l h)) as Hs.
  destruct (HighlightList.list_remove (x, true) (HighlightList.l h)) as [v' | e];
    simpl.
  - destruct Hs as (pre & y & post & Hl & Hy & Hpre & ->).
    exists pre, y, post. repeat split; assumption.
  - exact Hs.
Qed.

Lemma map_fst_filter `{Signature} (keep : hl_item -> bool) (v : list (hl_item * bool)) :
  map fst (List.filter (fun e => keep (fst e)) v) = List.filter keep (map fst v).
Proof.
  induction v as [| [y q] v IH]; simpl; [reflexivity |].
  destruct (keep y); simpl; rewrite IH; reflexivity.
Qed.

(** The snapshot handed to the renderer follows the calls: [add] appends
    its arguments in order, [remove_if] drops exactly the objects that
    satisfy the condition, [load] gives the objects of the baseline, and
    [save] and [reset_save] do not change it. *)
Theorem to_list_after `{Signature} (h : HighlightList.t) :
  (forall args p,
     HighlightList.to_list (HighlightList.add args p h)
     = HighlightList.to_list h ++ args) /\
  (forall cond,
     HighlightList.to_list (HighlightList.remove_if cond h)
     = List.filter (fun x => negb (cond x)) (HighlightList.to_list h)) /\
  (forall h',
     HighlightList.load h = Ok h' ->
     HighlightList.ini h = Some (HighlightList.l h') /\
     HighlightList.ini h' = HighlightList.ini h) /\
  HighlightList.to_list (HighlightList.save h) = HighlightList.to_list h /\
  HighlightList.to_list (HighlightList.reset_save h) = HighlightList.to_list h.
Proof.
  split; [| split; [| split; [| split]]].
  - intros args p. unfold HighlightList.to_list, HighlightList.add. simpl.
    rewrite map_app, map_map. simpl. rewrite map_id. reflexivity.
  - intros cond. unfold HighlightList.to_list, HighlightList.remove_if. simpl.
    apply (map_fst_filter (fun x => negb (cond x))).
  - intros h'. unfold HighlightList.load.
    destruct (HighlightList.ini h) as [v |] eqn:E; [| discriminate].
    intros [= <-]. split; [reflexivity | exact E].
  - reflexivity.
  - reflexivity.
Qed.

(** * Further properties of the engine *)

(** [cursor_away] puts the three working lists back to their baselines
    and hands them to the renderer; unlike an update cycle it keeps the
    stored hooks, the press state and [find_radius], and it cannot fail on
    a zero scale.  Without baselines it raises AttributeError. *)
Theorem cursor_away_restores `{Scene} (s : GTool)
  (vp vs vh : list (hl_item * bool)) :
  baselines s = (Some vp, Some vs, Some vh) ->
  exists s',
    cursor_away s = Ok s' /\
    workings s' = (vp, vs, vh) /\
    baselines s' = baselines s /\
    self_vis s'
    = update_hl_helpers (map fst vh)
        (update_hl_proposals (map fst vp)
           (update_hl_selected (map fst vs) (self_vis s))) /\
    press_state s' = press_state s /\
    update s' = update s /\
    (drag s', drag_start s', confirm s', confirm_next s')
    = (drag s, drag_start s, confirm s, confirm_next s) /\
    find_radius (base s') = find_radius (base s).
Proof.
  unfold baselines. intros [= Ep Es Eh].
  unfold cursor_away, _hl_load, HighlightList.load.
  rewrite Ep. simpl. rewrite Es. simpl. rewrite Eh. simpl.
  eexists. split; [reflexivity |].
  unfold baselines. simpl. rewrite Ep, Es, Eh. repeat split.
Qed.

Lemma cursor_away_no_baseline `{Scene} (s : GTool) :
  ~ baselines_set s -> cursor_away s = Raise AttributeError.
Proof.
  intros Hn. unfold cursor_away, _hl_load, HighlightList.load.
  destruct (HighlightList.ini (hl_proposals s)) as [vp |] eqn:Ep; [| reflexivity].
  simpl.
  destruct (HighlightList.ini (hl_selected s)) as [vs |] eqn:Es; [| reflexivity].
  simpl.
  destruct (HighlightList.ini (hl_helpers s)) as [vh |] eqn:Eh; [| reflexivity].
  exfalso. apply Hn. unfold baselines_set. rewrite Ep, Es, Eh. eauto.
Qed.

(** A click on a tool whose update cycle stored no drag handler runs one
    confirm cycle and records no anchor; a release that finds no anchor
    runs no confirm cycle. *)
Theorem click_without_drag_handler `{Tool} (c : coor) (s : GTool) :
  keeps_press_state ->
  click_coor s = None ->
  (forall su s',
     _run_update c s = Ok su -> drag su = None ->
     button_press c s = Ok s' ->
     click_coor s' = None /\ dragged s' = dragged s /\
     confirm_cycles s' = S (confirm_cycles s)) /\
  (forall s',
     button_release c s = Ok s' ->
     click_coor s' = None /\ dragged s' = dragged s /\
     confirm_cycles s' = confirm_cycles s).
Proof.
  intros K Hc. split.
  - intros su s' Hu Hd. unfold button_press. rewrite Hc. simpl.
    rewrite Hu. simpl. rewrite Hd. intros Hp.
    apply bind_Ok in Hp as (s3 & E3 & Hp).
    apply _run_update_press_state in Hu; [| exact K].
    apply _run_confirm_press_state in E3 as (A1 & A2 & A3); [| exact K].
    apply _run_update_press_state in Hp; [| exact K].
    injection Hu as U1 U2 U3. injection Hp as P1 P2 P3.
    repeat split; congruence.
  - intros s'. unfold button_release. rewrite Hc. simpl. intros Hp.
    apply _run_update_press_state in Hp; [| exact K].
    injection Hp as P1 P2 P3. repeat split; congruence.
Qed.

Lemma motion_dragging `{Tool} (c a : coor) (s : GTool) :
  click_coor s = Some a -> dragged s = true ->
  motion c true s = _run_update c s.
Proof.
  intros Ha Hd. unfold motion. rewrite Ha, Hd. simpl. rewrite Ha, Hd. reflexivity.
Qed.

Lemma _pre_update_hooks `{Signature} (s s1 : GTool) :
  _pre_update s = Ok s1 ->
  drag s1 = None /\ drag_start s1 = None /\
  confirm s1 = None /\ confirm_next s1 = None.
Proof.
  unfold _pre_update. intros Hp.
  apply bind_Ok in Hp as (sl & _ & Hp).
  apply bind_Ok in Hp as (b & _ & Hp). injection Hp as <-.
  repeat split.
Qed.

Lemma _run_update_drag_start `{Tool} (c : coor) (s su : GTool) (g : handler) :
  drag_start_keeps_drag ->
  _run_update c s = Ok su -> drag_start su = Some g ->
  forall x x', run_tuple g [] x = Ok x' -> drag x' = drag x.
Proof.
  intros D. unfold _run_update. intros Hu.
  apply bind_Ok in Hu as (s1 & E1 & Hu).
  apply bind_Ok in Hu as (s2 & E2 & Hu). injection Hu as <-.
  destruct (_pre_update_hooks s s1 E1) as (_ & Hds & _).
  change (drag_start (_hl_update s2)) with (drag_start s2).
  destruct (update s1) as [f | f extra]; simpl in E2.
  - apply (D f _ s1 s2 E2 Hds).
  - apply (D f _ s1 s2 E2 Hds).
Qed.

Lemma button_press_armed_result `{Tool} (c : coor) (s s' : GTool) :
  keeps_press_state -> drag_start_keeps_drag ->
  button_press c s = Ok s' -> armed s'.
Proof.
  intros K D Hp. unfold button_press in Hp.
  apply bind_Ok in Hp as (s1 & E1 & Hp).
  assert (C1 : click_coor s1 = None).
  { destruct (click_coor s) eqn:Ec.
    - apply (reset_press_state s s1 K E1).
    - injection E1 as <-. exact Ec. }
  apply bind_Ok in Hp as (su & Eu & Hp).
  pose proof (_run_update_press_state c s1 su K Eu) as Pu.
  destruct (drag su) as [d |] eqn:Ed.
  - apply bind_Ok in Hp as (s3 & E3 & Hp). injection Hp as <-.
    intros a _ _. change (drag (_hl_save s3)) with (drag s3).
    change (drag_start (set_dragged false (set_click_coor (Some c) su)))
      with (drag_start su) in E3.
    destruct (drag_start su) as [f |] eqn:Ef.
    + rewrite (_run_update_drag_start c s1 su f D Eu Ef _ _ E3).
      simpl. rewrite Ed. discriminate.
    + injection E3 as <-. simpl. rewrite Ed. discriminate.
  - apply bind_Ok in Hp as (s3 & E3 & Hp).
    apply _run_confirm_press_state in E3 as (A1 & _ & _); [| exact K].
    apply _run_update_press_state in Hp; [| exact K].
    injection Pu as P1 _ _. injection Hp as Q1 _ _.
    intros a Ha. exfalso. congruence.
Qed.

Lemma button_release_unpressed `{Tool} (c : coor) (s s' : GTool) :
  keeps_press_state -> button_release c s = Ok s' -> click_coor s' = None.
Proof.
  intros K Hp. unfold button_release in Hp.
  apply bind_Ok in Hp as (s1 & E1 & Hp).
  apply _run_update_press_state in Hp; [| exact K]. injection Hp as Q1 _ _.
  rewrite Q1. destruct (click_coor s) eqn:Ec.
  - apply _run_confirm_press_state in E1 as (A1 & _ & _); [| exact K].
    rewrite A1. reflexivity.
  - injection E1 as <-. exact Ec.
Qed.

Lemma motion_armed `{Tool} (c : coor) (b : bool) (s s' : GTool) :
  keeps_press_state -> armed s -> motion c b s = Ok s' -> armed s'.
Proof.
  intros K Ha Hm.
  destruct (click_coor s) as [a |] eqn:Ec.
  - destruct b.
    + destruct (dragged s) eqn:Ed.
      * rewrite (motion_dragging c a s Ec Ed) in Hm.
        apply _run_update_press_state in Hm; [| exact K].
        injection Hm as _ Q2 _. intros a' _ Hd'. exfalso. congruence.
      * destruct (Qeq_dec (self_scale s) 0) as [Hz | Hnz].
        { rewrite (motion_zero_scale c a s Ec Ed Hz) in Hm. discriminate. }
        destruct (Qlt_le_dec (linalg_norm (coor_sub c a)) (drag_threshold s))
          as [Hlt | Hle].
        -- rewrite (motion_short c a s Ec Ed Hnz Hlt) in Hm.
           injection Hm as <-. exact Ha.
        -- destruct (drag s) as [d |] eqn:Edr.
           ++ rewrite (motion_far c a d s Ec Ed Hnz Hle Edr) in Hm.
              apply _run_update_press_state in Hm; [| exact K].
              injection Hm as _ Q2 _. simpl in Q2.
              intros a' _ Hd'. exfalso. congruence.
           ++ rewrite (motion_far_no_drag c a s Ec Ed Hnz Hle Edr) in Hm.
              discriminate.
    + rewrite (motion_released c a s K Ec) in Hm.
      apply bind_Ok in Hm as (s1 & Er & Hu).
      apply _run_update_press_state in Hu; [| exact K].
      destruct (reset_press_state s s1 K Er) as (Hn & _).
      injection Hu as Q1 _ _. intros a' Ha'. exfalso. congruence.
  - rewrite (motion_unpressed c b s Ec) in Hm.
    apply _run_update_press_state in Hm; [| exact K].
    injection Hm as Q1 _ _. intros a' Ha'. exfalso. congruence.
Qed.

(** Whenever an anchor is recorded and the drag has not begun, a drag
    handler is stored: every press, release and reset ends in such a state
    and [motion] keeps it.  So the assertion in [motion] does not fail in
    the states the events lead to: a motion with the button held either
    leaves the state as it is or starts the drag with the stored handler.
    (The methods of the tool are assumed not to assign [click_coor] and
    [dragged], and the drag-start action not to assign [drag].) *)
Theorem anchor_has_drag_handler `{Tool} :
  keeps_press_state -> drag_start_keeps_drag ->
  (forall c s s', button_press c s = Ok s' -> armed s') /\
  (forall c s s', button_release c s = Ok s' -> armed s') /\
  (forall s s', reset s = Ok s' -> armed s') /\
  (forall c b s s', armed s -> motion c b s = Ok s' -> armed s') /\
  (forall c a s,
     armed s -> click_coor s = Some a -> dragged s = false ->
     ~ (self_scale s == 0)%Q ->
     exists d,
       drag s = Some d /\
       (motion c true s = Ok s \/
        motion c true s = _run_update c (set_dragged true (set_update d s)))).
Proof.
  intros K D. split; [| split; [| split; [| split]]].
  - intros c s s'. apply button_press_armed_result; assumption.
  - intros c s s' Hr a Ha. exfalso.
    rewrite (button_release_unpressed c s s' K Hr) in Ha. discriminate.
  - intros s s' Hr a Ha. exfalso.
    destruct (reset_press_state s s' K Hr) as (Hc & _). congruence.
  - intros c b s s'. apply motion_armed. exact K.
  - intros c a s Ha Hc Hd Hs.
    destruct (drag s) as [d |] eqn:Edr; [| exfalso; exact (Ha a Hc Hd Edr)].
    exists d. split; [reflexivity |].
    destruct (Qlt_le_dec (linalg_norm (coor_sub c a)) (drag_threshold s))
      as [Hlt | Hle].
    + left. apply (motion_short c a s Hc Hd Hs Hlt).
    + right. apply (motion_far c a d s Hc Hd Hs Hle Edr).
Qed.

Lemma move_drag_start_keeps_drag `{GToolMove.Collab} : drag_start_keeps_drag.
Proof.
  intros f args s s' Hc Hn g Hg x x' Hx.
  assert (Hcases : drag_start s' = drag_start s \/ g = HFun GToolMove.MoveStart).
  { unfold call in Hc. simpl in Hc. unfold GToolMove.move_call in Hc.
    destruct f.
    - destruct args as [| [] [|]]; try discriminate.
      unfold GToolMove.update_basic, select_pcl, select_by_coor in Hc.
      apply bind_Ok in Hc as ([s1 r] & E1 & Hc).
      apply bind_Ok in E1 as ([b r0] & _ & E1).
      destruct r0 as [[obj nobj] |]; injection E1 as <- <-.
      + injection Hc as <-. simpl in Hg. injection Hg as <-. right. reflexivity.
      + injection Hc as <-. left. reflexivity.
    - destruct args; [| discriminate]. injection Hc as <-. left. reflexivity.
    - destruct args as [| [] [| [] [| [] [| [] [|]]]]]; try discriminate.
      unfold GToolMove.move_obj in Hc.
      apply bind_Ok in Hc as (s1 & E1 & Hc). injection Hc as <-.
      destruct (GToolMove.is_Intersection _).
      + destruct (GToolMove.hyper_params _) as [| k [|]]; try discriminate.
        apply bind_Ok in E1 as (alt & _ & E1). injection E1 as <-.
        left. reflexivity.
      + injection E1 as <-. left. reflexivity.
    - destruct args; [| discriminate]. injection Hc as <-. left. reflexivity.
    - destruct args; [| discriminate]. injection Hc as <-. left. reflexivity. }
  destruct Hcases as [He | ->].
  - rewrite He, Hn in Hg. discriminate.
  - simpl in Hx. injection Hx as <-. reflexivity.
Qed.

Section MoreOnTheMoveScene.

#[local] Existing Instance DemoMove.world.
#[local] Existing Instance DemoMove.collab.

Lemma anchor_has_drag_handler_witness :
  keeps_press_state /\ drag_start_keeps_drag /\
  forall c s s', button_press c s = Ok s' -> armed s'.
Proof.
  split; [exact move_keeps_press_state |].
  split; [exact move_drag_start_keeps_drag |].
  exact (proj1 (anchor_has_drag_handler move_keeps_press_state
                  move_drag_start_keeps_drag)).
Defined.

Lemma click_without_drag_handler_witness :
  keeps_press_state /\
  click_coor DemoMove.entered = None /\
  forall s',
    button_release (5, 5)%Q DemoMove.entered = Ok s' ->
    click_coor s' = None /\ dragged s' = dragged DemoMove.entered /\
    confirm_cycles s' = confirm_cycles DemoMove.entered.
Proof.
  assert (Hc : click_coor DemoMove.entered = None) by (vm_compute; reflexivity).
  split; [exact move_keeps_press_state |]. split; [exact Hc |].
  exact (proj2 (click_without_drag_handler (5, 5)%Q DemoMove.entered
                  move_keeps_press_state Hc)).
Defined.

Lemma cursor_away_restores_witness :
  baselines DemoMove.pressed = (Some [], Some [], Some []) /\
  exists s',
    cursor_away DemoMove.pressed = Ok s' /\
    workings s' = ([], [], []).
Proof.
  assert (Hb : baselines DemoMove.pressed = (Some [], Some [], Some []))
    by (vm_compute; reflexivity).
  split; [exact Hb |].
  destruct (cursor_away_restores DemoMove.pressed [] [] [] Hb)
    as (s' & Hc & Hw & _).
  exists s'. split; assumption.
Defined.

(** The drag threshold is the float that the division gives: with a
    drag distance of 5 pixels at scale 11 it is 8188362958855447 / 2^54,
    a little below 5/11, and a movement of that very length starts the
    drag. *)
Example drag_threshold_is_the_float_quotient :
  let vp0 := viewport (base DemoMove.pressed) in
  let s :=
    set_distance_to_drag_pix 5
      (set_base
         (set_viewport {| scale := 11; vis := vis vp0; env := env vp0 |}
            (base DemoMove.pressed))
         DemoMove.pressed) in
  let d := (8188362958855447 # 18014398509481984)%Q in
  drag_threshold s = d /\
  (d < 5 / 11)%Q /\
  click_coor s = Some (1, 0)%Q /\
  linalg_norm (coor_sub (1 + d, 0)%Q (1, 0)%Q) == d /\
  exists s', motion (1 + d, 0)%Q true s = Ok s' /\ dragged s' = true.
Proof.
  vm_compute. split; [reflexivity |]. split; [reflexivity |].
  split; [reflexivity |]. split; [reflexivity |].
  eexists. split; reflexivity.
Qed.

(** On the scene of the move tool the alternative shown during the drag
    is gone after the release: the update cycle of the release starts
    from the baseline and proposes nothing. *)
Example alternative_gone_after_release :
  In (HNum (GToolMove.Point (-1, 0)%Q), false)
     (HighlightList.l (hl_proposals DemoMove.dragging)) /\
  exists s',
    button_release (3, 0)%Q DemoMove.dragging = Ok s' /\
    HighlightList.l (hl_proposals s') = [].
Proof.
  split; [vm_compute; left; reflexivity |].
  vm_compute. eexists. split; reflexivity.
Qed.

End MoreOnTheMoveScene.

Section MoreOnTheHideScene.

#[local] Existing Instance DemoHide.world.
#[local] Existing Instance DemoHide.collab.

(** Two candidates at the same distance: the one listed first is
    returned. *)
Lemma coor_to_obj_first_seen_witness :
  let self :=
    ObjSelector_init
      (mkObjSelector _ 0 None {| scale := 20; vis := DemoHide.the_vis; env := tt |}) in
  let l : list (gi * num) := [(7, ((1 # 2)%Q, 0%Q)); (3, (0%Q, (1 # 2)%Q))] in
  coor_to_obj (0, 0)%Q l None self
  = Ok (set_find_radius (py_quot 20 20) self, Some (7, ((1 # 2)%Q, 0%Q))) /\
  exists pre post,
    apply_filter None l = pre ++ (7, ((1 # 2)%Q, 0%Q)) :: post /\
    (forall q, In q pre ->
       (dist_from (snd (7, ((1 # 2)%Q, 0%Q))) (0, 0)%Q < dist_from (snd q) (0, 0)%Q)%Q) /\
    (forall q, In q post ->
       (dist_from (snd (7, ((1 # 2)%Q, 0%Q))) (0, 0)%Q <= dist_from (snd q) (0, 0)%Q)%Q).
Proof.
  intros self l.
  assert (Hc : coor_to_obj (0, 0)%Q l None self
               = Ok (set_find_radius (py_quot 20 20) self, Some (7, ((1 # 2)%Q, 0%Q))))
    by (vm_compute; reflexivity).
  split; [exact Hc |].
  exact (coor_to_obj_first_seen (0, 0)%Q l None self _ _ Hc).
Defined.

Lemma coor_to_obj_again_witness :
  let self :=
    ObjSelector_init
      (mkObjSelector _ 0 None {| scale := 20; vis := DemoHide.the_vis; env := tt |}) in
  let l : list (gi * num) := [(7, ((1 # 2)%Q, 0%Q)); (3, (0%Q, (1 # 2)%Q))] in
  let self' := set_find_radius (py_quot 20 20) self in
  coor_to_obj (0, 0)%Q l None self = Ok (self', Some (7, ((1 # 2)%Q, 0%Q))) /\
  coor_to_obj (0, 0)%Q l None self' = Ok (self', Some (7, ((1 # 2)%Q, 0%Q))).
Proof.
  intros self l self'.
  assert (Hc : coor_to_obj (0, 0)%Q l None self
               = Ok (self', Some (7, ((1 # 2)%Q, 0%Q))))
    by (vm_compute; reflexivity).
  split; [exact Hc |].
  exact (proj2 (proj2 (proj2 (coor_to_obj_again (0, 0)%Q l None self _ _ Hc)))).
Defined.

Lemma point_priority_witness :
  ~ (scale (viewport (base DemoHide.entered)) == 0)%Q /\
  exists rp rcl,
    coor_to_point (0, 0)%Q None (base DemoHide.entered)
    = Ok (set_find_radius
            (py_quot (find_radius_pix (base DemoHide.entered))
               (scale (viewport (base DemoHide.entered))))
            (base DemoHide.entered), rp) /\
    coor_to_pcl (0, 0)%Q None (base DemoHide.entered)
    = Ok (set_find_radius
            (py_quot (find_radius_pix (base DemoHide.entered))
               (scale (viewport (base DemoHide.entered))))
            (base DemoHide.entered),
          match rp with Some p => Some p | None => rcl end).
Proof.
  assert (Hs : ~ (scale (viewport (base DemoHide.entered)) == 0)%Q)
    by (vm_compute; discriminate).
  split; [exact Hs |].
  destruct (point_priority (0, 0)%Q None (base DemoHide.entered) Hs)
    as (rp & rl & rc & rcl & Hp & _ & _ & _ & Hpcl & _).
  exists rp, rcl. split; assumption.
Defined.

End MoreOnTheHideScene.

(** * Only permanent entries outlive a cycle *)

Lemma baselines_permanent_eq `{Signature} (s s' : GTool) :
  baselines s' = baselines s -> baselines_permanent s -> baselines_permanent s'.
Proof.
  unfold baselines, baselines_permanent. intros [= -> -> ->]. auto.
Qed.

Lemma filter_snd_permanent `{Signature} (v : list (hl_item * bool)) :
  all_permanent (List.filter snd v).
Proof.
  unfold all_permanent. apply List.Forall_forall. intros e He.
  apply List.filter_In in He. tauto.
Qed.

Lemma _hl_save_permanent `{Signature} (s : GTool) : baselines_permanent (_hl_save s).
Proof.
  intros v [E | [E | E]]; simpl in E; injection E as <-;
    apply filter_snd_permanent.
Qed.

Lemma _hl_reset_permanent `{Signature} (s : GTool) : baselines_permanent (_hl_reset s).
Proof.
  intros v [E | [E | E]]; simpl in E; injection E as <-; constructor.
Qed.

Lemma run_tuple_baselines `{Tool} (h : handler) args s s' :
  leaves_baselines -> run_tuple h args s = Ok s' -> baselines s' = baselines s.
Proof.
  intros L. destruct h; simpl; apply L.
Qed.

Lemma _run_update_baselines `{Tool} (c : coor) (s s' : GTool) :
  leaves_baselines -> _run_update c s = Ok s' -> baselines s' = baselines s.
Proof.
  intros L Hu. unfold _run_update in Hu.
  apply bind_Ok in Hu as (s1 & E1 & Hu).
  apply bind_Ok in Hu as (s2 & E2 & Hu). injection Hu as <-.
  apply _pre_update_baselines in E1.
  apply (run_tuple_baselines _ _ _ _ L) in E2.
  change (baselines (_hl_update s2)) with (baselines s2). congruence.
Qed.

Lemma _run_confirm_permanent `{Tool} (s s' : GTool) :
  leaves_baselines -> _run_confirm s = Ok s' -> baselines_permanent s'.
Proof.
  intros L Hc. unfold _run_confirm in Hc.
  apply bind_Ok in Hc as (s1 & E1 & Hc).
  destruct (confirm_next s1) as [next |].
  - injection Hc as <-. apply (_hl_save_permanent (set_update next s1)).
  - apply (run_tuple_baselines _ _ _ _ L) in Hc.
    eapply baselines_permanent_eq; [exact Hc |].
    apply (_hl_reset_permanent s1).
Qed.

Lemma reset_permanent `{Tool} (s s' : GTool) :
  leaves_baselines -> reset s = Ok s' -> baselines_permanent s'.
Proof.
  intros L Hr.
  destruct (reset_hook_state s s' Hr) as (s0 & Hrun & _ & _ & Hb & _).
  apply (run_tuple_baselines _ _ _ _ L) in Hrun.
  rewrite Hb in Hrun. unfold baselines in Hrun. injection Hrun as Hp Hs Hh.
  intros v. rewrite Hp, Hs, Hh.
  intros [E | [E | E]]; injection E as <-; constructor.
Qed.

Lemma button_press_permanent `{Tool} (c : coor) (s s' : GTool) :
  leaves_baselines -> button_press c s = Ok s' -> baselines_permanent s'.
Proof.
  intros L Hp. unfold button_press in Hp.
  apply bind_Ok in Hp as (s1 & E1 & Hp).
  apply bind_Ok in Hp as (s2 & E2 & Hp).
  destruct (drag s2).
  - apply bind_Ok in Hp as (s3 & E3 & Hp). injection Hp as <-.
    apply _hl_save_permanent.
  - apply bind_Ok in Hp as (s3 & E3 & Hp).
    eapply baselines_permanent_eq;
      [exact (_run_update_baselines c s3 s' L Hp) |].
    eapply _run_confirm_permanent; eassumption.
Qed.

Lemma button_release_permanent `{Tool} (c : coor) (s s' : GTool) :
  leaves_baselines -> baselines_permanent s ->
  button_release c s = Ok s' -> baselines_permanent s'.
Proof.
  intros L Hb Hp. unfold button_release in Hp.
  apply bind_Ok in Hp as (s1 & E1 & Hp).
  eapply baselines_permanent_eq;
    [exact (_run_update_baselines c s1 s' L Hp) |].
  destruct (click_coor s).
  - eapply _run_confirm_permanent; eassumption.
  - injection E1 as <-. exact Hb.
Qed.

Lemma motion_permanent `{Tool} (c : coor) (b : bool) (s s' : GTool) :
  leaves_baselines -> baselines_permanent s ->
  motion c b s = Ok s' -> baselines_permanent s'.
Proof.
  intros L Hb Hm. unfold motion in Hm.
  apply bind_Ok in Hm as (s1 & E1 & Hm).
  assert (B1 : baselines_permanent s1).
  { destruct (click_coor s); [| injection E1 as <-; exact Hb].
    destruct b; [| eapply reset_permanent; eassumption].
    destruct (dragged s); [injection E1 as <-; exact Hb |].
    apply bind_Ok in E1 as (thr & _ & E1).
    destruct (py_ge _ thr); [| injection E1 as <-; exact Hb].
    destruct (drag s); [| discriminate].
    injection E1 as <-. exact Hb. }
  destruct (click_coor s1), (dragged s1);
    try (eapply baselines_permanent_eq;
         [exact (_run_update_baselines c s1 s' L Hm) | exact B1]).
  injection Hm as <-. exact B1.
Qed.

Lemma _pre_update_workings `{Signature} (s s1 : GTool) :
  _pre_update s = Ok s1 ->
  baselines s = (Some (HighlightList.l (hl_proposals s1)),
                 Some (HighlightList.l (hl_selected s1)),
                 Some (HighlightList.l (hl_helpers s1))).
Proof.
  unfold _pre_update, _hl_load, HighlightList.load, baselines.
  destruct (HighlightList.ini (hl_proposals s)) as [vp |]; simpl; [| discriminate].
  destruct (HighlightList.ini (hl_selected s)) as [vs |]; simpl; [| discriminate].
  destruct (HighlightList.ini (hl_helpers s)) as [vh |]; simpl; [| discriminate].
  unfold _update_find_radius.
  destruct (py_truediv _ _) as [r | e]; simpl; [| discriminate].
  intros [= <-]. reflexivity.
Qed.

(** Only permanent entries outlive a cycle.  A newly constructed tool has
    no baseline; [reset] and [button_press] leave baselines made of
    permanent entries only, [button_release] and [motion] keep them so,
    and therefore the working lists that [_pre_update] hands to an update
    handler never hold a temporary entry of an earlier cycle.  (The
    methods of the tool are assumed not to assign the baselines.) *)
Theorem temporary_entries_do_not_survive `{Tool} :
  leaves_baselines ->
  (forall s, baselines_permanent (GTool_init s)) /\
  (forall s s', reset s = Ok s' -> baselines_permanent s') /\
  (forall c s s', button_press c s = Ok s' -> baselines_permanent s') /\
  (forall c s s',
     baselines_permanent s -> button_release c s = Ok s' ->
     baselines_permanent s') /\
  (forall c b s s',
     baselines_permanent s -> motion c b s = Ok s' ->
     baselines_permanent s') /\
  (forall s s1,
     baselines_permanent s -> _pre_update s = Ok s1 ->
     all_permanent (HighlightList.l (hl_proposals s1)) /\
     all_permanent (HighlightList.l (hl_selected s1)) /\
     all_permanent (HighlightList.l (hl_helpers s1))).
Proof.
  intros L. split; [| split; [| split; [| split; [| split]]]].
  - intros s v [E | [E | E]]; discriminate E.
  - intros s s'. apply reset_permanent. exact L.
  - intros c s s'. apply button_press_permanent. exact L.
  - intros c s s'. apply button_release_permanent. exact L.
  - intros c b s s'. apply motion_permanent. exact L.
  - intros s s1 Hb Hp. apply _pre_update_workings in Hp.
    unfold baselines in Hp. injection Hp as Ep Es Eh.
    repeat split; apply Hb; auto.
Qed.

Lemma hide_leaves_baselines `{GToolHide.Collab} : leaves_baselines.
Proof.
  intros f args s s' Hc. apply hide_call_frame in Hc. tauto.
Qed.

Lemma move_leaves_baselines `{GToolMove.Collab} : leaves_baselines.
Proof.
  intros f args s s' Hc. apply move_call_frame in Hc. tauto.
Qed.

(** * What a picker hands back *)

Lemma coor_to_obj_picked `{Scene} (c : coor) (l : list (gi * num))
  (filter_f : filter_t) (self self' : ObjSelector) (p : gi * num) :
  coor_to_obj c l filter_f self = Ok (self', Some p) ->
  In p l /\ passes filter_f p /\
  (dist_from (snd p) c < py_quot (find_radius_pix self) (scale (viewport self)))%Q.
Proof.
  intros Hc. destruct (Qeq_dec (scale (viewport self)) 0) as [Hz | Hnz].
  { rewrite (coor_to_obj_zero_scale c l filter_f self Hz) in Hc. discriminate. }
  pose proof (coor_to_obj_first_min c l filter_f self Hnz) as Hm. simpl in Hm.
  destruct (apply_filter filter_f l) as [| x rest] eqn:E.
  - rewrite Hm in Hc. discriminate.
  - destruct Hm as (m & Hfirst & Hm). rewrite Hm in Hc.
    destruct (py_ge _ _) eqn:G; [discriminate |].
    injection Hc as _ <-.
    assert (Hin : In m l /\ passes filter_f m).
    { apply apply_filter_In. rewrite E. eapply first_min_In; eauto. }
    apply py_ge_false in G. tauto.
Qed.

Lemma coor_to_pcl_from `{Scene} (c : coor) (filter_f : filter_t)
  (self self' : ObjSelector) (p : gi * num) :
  coor_to_pcl c filter_f self = Ok (self', Some p) ->
  exists l,
    (l = selectable_points (vis (viewport self)) \/
     l = selectable_lines (vis (viewport self))
         ++ selectable_circles (vis (viewport self))) /\
    exists self1, coor_to_obj c l filter_f self = Ok (self1, Some p).
Proof.
  intros Hc.
  destruct (Qeq_dec (scale (viewport self)) 0) as [Hz | Hs].
  { exfalso. revert Hc. unfold coor_to_pcl, coor_to_attempts, coor_to_point.
    rewrite (coor_to_obj_zero_scale c _ filter_f self Hz). discriminate. }
  destruct (coor_to_attempts_two c filter_f selectable_points
              (fun v => selectable_lines v ++ selectable_circles v) self Hs)
    as (rp & rcl & Hp & Hcl & Hpcl).
  change (coor_to_pcl c filter_f self
          = Ok (set_find_radius (py_quot (find_radius_pix self) (scale (viewport self))) self,
                match rp with Some q => Some q | None => rcl end)) in Hpcl.
  rewrite Hpcl in Hc. injection Hc as _ Hr.
  destruct rp as [q |].
  - injection Hr as ->. eexists. split; [left; reflexivity |]. eauto.
  - subst rcl. eexists. split; [right; reflexivity |]. eauto.
Qed.

(** An object handed back by the combined picker [coor_to_pcl] is one of
    the selectable points, lines or circles of the scene, passes the
    filter, and lies within the tolerance (the float that
    [find_radius_pix / scale] gives, which the call stores) of the
    cursor. *)
Theorem coor_to_pcl_picked `{Scene} (c : coor) (filter_f : filter_t)
  (self self' : ObjSelector) (p : gi * num) :
  coor_to_pcl c filter_f self = Ok (self', Some p) ->
  (In p (selectable_points (vis (viewport self))) \/
   In p (selectable_lines (vis (viewport self))) \/
   In p (selectable_circles (vis (viewport self)))) /\
  passes filter_f p /\
  (dist_from (snd p) c < py_quot (find_radius_pix self) (scale (viewport self)))%Q.
Proof.
  intros Hc.
  destruct (coor_to_pcl_from c filter_f self self' p Hc)
    as (l & Hl & self1 & Hobj).
  destruct (coor_to_obj_picked _ _ _ _ _ _ Hobj) as (Hin & Hf & Hd).
  split; [| auto].
  destruct Hl as [-> | ->]; [auto |].
  apply in_app_or in Hin. tauto.
Qed.

(** * The hide tool in the unhide state *)

(** In the unhide state every click ends with show-all mode off and
    [update_basic] as the update handler.  Only hidden objects can be
    picked; when one is picked, its hidden flag becomes false and every
    other flag is as before; when none is, no flag changes. *)
Theorem hide_unhide_click `{GToolHide.Collab} (c : coor) (s : GTool) :
  hide_collab_ok ->
  baselines_set s -> ~ (self_scale s == 0)%Q ->
  click_coor s = None ->
  update s = HFun GToolHide.UpdateUnhide ->
  on_reset s = HFun GToolHide.OnReset ->
  exists b r s',
    coor_to_pcl c (Some (fun g _ => hidden s g)) (base s) = Ok (b, r) /\
    button_press c s = Ok s' /\
    show_all s' = false /\
    update s' = HFun GToolHide.UpdateBasic /\
    match r with
    | Some p =>
        hidden s (fst p) = true /\
        forall g, hidden s' g = if Nat.eqb g (fst p) then false else hidden s g
    | None => forall g, hidden s' g = hidden s g
    end.
Proof.
  intros Hok Hb Hs Hc Hu Hon.
  destruct (hide_update_unhide_cycle c s Hok Hb Hs Hu)
    as (b1 & r & s1 & Hpick & Hrun1 & (_ & Hh1 & Hsc1 & _ & Hon1 & _) & Hdrag1
        & Hcn & Hcf).
  exists b1, r.
  pose (s1c := set_confirm_cycles (S (confirm_cycles s1)) s1).
  destruct r as [[obj n] |]; simpl in Hcf.
  - pose (s1h := set_vis (GToolHide.set_hidden obj false (self_vis s1c)) s1c).
    pose (s2 := GToolHide.set_show_all false s1h).
    pose (x := set_update (HFun GToolHide.UpdateBasic) (_hl_reset s2)).
    pose (s3 := GToolHide.set_show_all false x).
    destruct (set_show_all_fields false s1h) as (_ & Hon2 & Hn2 & _).
    fold s2 in Hon2, Hn2.
    assert (Hconfirm : _run_confirm s1 = Ok s3).
    { unfold _run_confirm. simpl. rewrite Hcf. simpl.
      unfold GToolHide.unhide. fold s1c. fold s1h. fold s2. simpl.
      rewrite Hn2. simpl. rewrite Hcn. simpl. rewrite Hon2. simpl.
      rewrite Hon1, Hon. reflexivity. }
    destruct (set_show_all_flags false s1h Hok) as (A1 & A2 & A3).
    fold s2 in A1, A2, A3.
    destruct (set_show_all_flags false x Hok) as (B1 & B2 & B3).
    fold s3 in B1, B2, B3.
    destruct (set_show_all_fields false x) as (Hu3 & _ & _ & _ & Hbl3).
    fold s3 in Hu3, Hbl3.
    assert (Hb3 : baselines_set s3).
    { eapply baselines_set_eq; [exact Hbl3 |].
      apply (_hl_reset_baselines_set s2). }
    assert (Hs3 : ~ (self_scale s3 == 0)%Q).
    { rewrite B3. change (self_scale x) with (self_scale s2). rewrite A3.
      change (self_scale s1h) with (self_scale s1). rewrite Hsc1. exact Hs. }
    destruct (hide_update_basic_cycle c s3 Hok Hb3 Hs3 Hu3)
      as (b4 & r4 & s4 & _ & Hrun4 & (F1 & F2 & _ & F4 & _) & _).
    exists s4. split; [exact Hpick |]. split; [| split; [| split; [| split]]].
    + unfold button_press. rewrite Hc. simpl. rewrite Hrun1. simpl.
      rewrite Hdrag1. rewrite Hconfirm. simpl. exact Hrun4.
    + rewrite F1. exact B1.
    + rewrite F4. exact Hu3.
    + destruct (coor_to_pcl_from _ _ _ _ _ Hpick) as (l & _ & self1 & Hobj).
      destruct (coor_to_obj_picked _ _ _ _ _ _ Hobj) as (_ & Hf & _).
      exact Hf.
    + intros g. rewrite F2, B2. change (hidden x g) with (hidden s2 g).
      rewrite A2. unfold hidden at 1. unfold s1h. simpl.
      destruct (Nat.eqb g obj); [reflexivity |]. apply Hh1.
  - pose (s2 := GToolHide.set_show_all false s1c).
    pose (x := set_update (HFun GToolHide.UpdateBasic) (_hl_reset s2)).
    pose (s3 := GToolHide.set_show_all false x).
    destruct (set_show_all_fields false s1c) as (_ & Hon2 & Hn2 & _).
    fold s2 in Hon2, Hn2.
    assert (Hconfirm : _run_confirm s1 = Ok s3).
    { unfold _run_confirm. simpl. rewrite Hcf. simpl.
      fold s1c. fold s2. simpl.
      rewrite Hn2. simpl. rewrite Hcn. simpl. rewrite Hon2. simpl.
      rewrite Hon1, Hon. reflexivity. }
    destruct (set_show_all_flags false s1c Hok) as (A1 & A2 & A3).
    fold s2 in A1, A2, A3.
    destruct (set_show_all_flags false x Hok) as (B1 & B2 & B3).
    fold s3 in B1, B2, B3.
    destruct (set_show_all_fields false x) as (Hu3 & _ & _ & _ & Hbl3).
    fold s3 in Hu3, Hbl3.
    assert (Hb3 : baselines_set s3).
    { eapply baselines_set_eq; [exact Hbl3 |].
      apply (_hl_reset_baselines_set s2). }
    assert (Hs3 : ~ (self_scale s3 == 0)%Q).
    { rewrite B3. change (self_scale x) with (self_scale s2). rewrite A3.
      change (self_scale s1c) with (self_scale s1). rewrite Hsc1. exact Hs. }
    destruct (hide_update_basic_cycle c s3 Hok Hb3 Hs3 Hu3)
      as (b4 & r4 & s4 & _ & Hrun4 & (F1 & F2 & _ & F4 & _) & _).
    exists s4. split; [exact Hpick |]. split; [| split; [| split]].
    + unfold button_press. rewrite Hc. simpl. rewrite Hrun1. simpl.
      rewrite Hdrag1. rewrite Hconfirm. simpl. exact Hrun4.
    + rewrite F1. exact B1.
    + rewrite F4. exact Hu3.
    + intros g. rewrite F2, B2. change (hidden x g) with (hidden s2 g).
      rewrite A2. change (hidden s1c g) with (hidden s1 g). apply Hh1.
Qed.

Section TheMoveSceneAgain.

#[local] Existing Instance DemoMove.world.
#[local] Existing Instance DemoMove.collab.

Lemma temporary_entries_do_not_survive_witness :
  leaves_baselines /\
  forall c s s', button_press c s = Ok s' -> baselines_permanent s'.
Proof.
  split; [exact move_leaves_baselines |].
  exact (proj1 (proj2 (proj2
           (temporary_entries_do_not_survive move_leaves_baselines)))).
Defined.

End TheMoveSceneAgain.

Section TheHideSceneAgain.

#[local] Existing Instance DemoHide.world.
#[local] Existing Instance DemoHide.collab.

(** The visible point at the origin is picked from (1, 0). *)
Lemma coor_to_pcl_picked_witness :
  coor_to_pcl (1, 0)%Q None (base DemoHide.entered)
  = Ok (base DemoHide.entered, Some (0, (0, 0)%Q)) /\
  passes None (0, (0, 0)%Q) /\
  (dist_from (snd (0, (0, 0)%Q)) (1, 0)%Q
   < py_quot (find_radius_pix (base DemoHide.entered))
       (scale (viewport (base DemoHide.entered))))%Q.
Proof.
  assert (Hc : coor_to_pcl (1, 0)%Q None (base DemoHide.entered)
               = Ok (base DemoHide.entered, Some (0, (0, 0)%Q)))
    by (vm_compute; reflexivity).
  split; [exact Hc |].
  exact (proj2 (coor_to_pcl_picked (1, 0)%Q None (base DemoHide.entered)
                  (base DemoHide.entered) (0, (0, 0)%Q) Hc)).
Defined.

(** In the unhide state reached by a click on empty space, a further
    click is answered as the theorem says. *)
Lemma hide_unhide_click_witness :
  hide_collab_ok /\
  baselines_set DemoHide.after_empty_click /\
  ~ (self_scale DemoHide.after_empty_click == 0)%Q /\
  click_coor DemoHide.after_empty_click = None /\
  update DemoHide.after_empty_click = HFun GToolHide.UpdateUnhide /\
  on_reset DemoHide.after_empty_click = HFun GToolHide.OnReset /\
  exists s',
    button_press (100, 0)%Q DemoHide.after_empty_click = Ok s' /\
    show_all s' = false /\
    update s' = HFun GToolHide.UpdateBasic.
Proof.
  assert (Hb : baselines_set DemoHide.after_empty_click)
    by (repeat split; vm_compute; eexists; reflexivity).
  assert (Hs : ~ (self_scale DemoHide.after_empty_click == 0)%Q)
    by (vm_compute; discriminate).
  assert (Hc : click_coor DemoHide.after_empty_click = None)
    by (vm_compute; reflexivity).
  assert (Hu : update DemoHide.after_empty_click = HFun GToolHide.UpdateUnhide)
    by (vm_compute; reflexivity).
  assert (Hon : on_reset DemoHide.after_empty_click = HFun GToolHide.OnReset)
    by (vm_compute; reflexivity).
  repeat (split; [assumption || exact demo_hide_collab_ok |]).
  destruct (hide_unhide_click (100, 0)%Q DemoHide.after_empty_click
              demo_hide_collab_ok Hb Hs Hc Hu Hon)
    as (b & r & s' & _ & Hp & Hsa & Hup & _).
  exists s'. repeat split; assumption.
Defined.

End TheHideSceneAgain.
